(** * The square-foot pro forma (developer/sqftproforma.py)

    A shallow embedding of [SqFtProForma] and [SqFtProFormaReference]:
    parameter validation and conversion, the reference table, the
    feasibility lookup and the parking-configuration selector, followed by
    the properties established about them.

    Numbers.  The Python code computes on IEEE doubles through numpy and
    pandas.  The embedding keeps the three special values the code relies on
    (not-a-number and the two infinities) and computes on finite values
    exactly, as canonical rationals: rounding and signed zeros are not
    modelled.  The properties below therefore compare the values the code
    computes, or say by which operations it computes them; none is an
    identity of exact arithmetic, which rounding would break.  Where the
    specification states such an identity, the lines concerned are
    evaluated on binary64 floats (module [Binary64]).

    Tables.  A pandas DataFrame is an index (row labels) and a finite map
    from column names to columns.  Python dicts keyed by strings are finite
    maps.  Exceptions are values of [exn] carried by the [result] monad. *)

From stdpp Require Import base option list gmap strings fin_maps sorting.
From Stdlib Require Import QArith Qcanon Qround Lia.
From Stdlib Require PrimFloat.

Close Scope Qc_scope.
Close Scope Q_scope.
Open Scope nat_scope.

(** ** Exceptions *)

Inductive exn : Type :=
  | AssertionError
  | KeyError (k : string)
  | AttributeError (k : string)
  | ValueError
  | IndexError
  | TypeError
  | UnboundLocalError (v : string).

Inductive result (A : Type) : Type :=
  | Ok (a : A)
  | Raise (e : exn).
Arguments Ok {A} a.
Arguments Raise {A} e.

#[global] Instance result_ret : MRet result := fun _ a => Ok a.
#[global] Instance result_bind : MBind result := fun _ _ f m =>
  match m with Ok a => f a | Raise e => Raise e end.
#[global] Instance result_fmap : FMap result := fun _ _ f m =>
  match m with Ok a => Ok (f a) | Raise e => Raise e end.

(** [assert c] *)
Definition assert (c : bool) : result unit :=
  if c then Ok tt else Raise AssertionError.

(** A lookup that raises [e] when it finds nothing. *)
Definition or_raise {A} (e : exn) (o : option A) : result A :=
  match o with Some a => Ok a | None => Raise e end.

(** [for x in l: body x], stopping at the first exception. *)
Fixpoint for_each {A} (body : A → result unit) (l : list A) : result unit :=
  match l with
  | [] => Ok tt
  | x :: l' => body x ≫= λ _, for_each body l'
  end.

(** [[f x for x in l]], stopping at the first exception. *)
Fixpoint map_result {A B} (f : A → result B) (l : list A) : result (list B) :=
  match l with
  | [] => Ok []
  | x :: l' => y ← f x; ys ← map_result f l'; Ok (y :: ys)
  end.

Definition is_ok {A} (r : result A) : bool :=
  match r with Ok _ => true | Raise _ => false end.

(** ** Numbers *)

Module Num.

Inductive num : Type :=
  | NaN
  | PInf
  | NInf
  | Fin (q : Qc).

#[global] Instance num_eq_dec : EqDecision num.
Proof. solve_decision. Defined.

Definition of_Q (q : Q) : num := Fin (Q2Qc q).
Definition of_Z (z : Z) : num := Fin (Q2Qc (inject_Z z)).

Definition isnan (x : num) : bool :=
  match x with NaN => true | _ => false end.
Definition isinf (x : num) : bool :=
  match x with PInf | NInf => true | _ => false end.
Definition isfinite (x : num) : bool :=
  match x with Fin _ => true | _ => false end.

Definition neg (x : num) : num :=
  match x with
  | NaN => NaN | PInf => NInf | NInf => PInf | Fin q => Fin (- q)%Qc
  end.

(** Arithmetic.  The special values follow IEEE 754; on finite values the
    operations are exact, where numpy rounds the result to the nearest
    double.  The operations of module [Binary64] are the rounded ones. *)
Definition add (x y : num) : num :=
  match x, y with
  | NaN, _ | _, NaN => NaN
  | PInf, NInf | NInf, PInf => NaN
  | PInf, _ | _, PInf => PInf
  | NInf, _ | _, NInf => NInf
  | Fin a, Fin b => Fin (a + b)%Qc
  end.

Definition sub (x y : num) : num := add x (neg y).

(** The sign of a number that is not NaN: [Lt] negative, [Eq] zero. *)
Definition sign (x : num) : comparison :=
  match x with
  | NaN => Eq | PInf => Gt | NInf => Lt | Fin q => (q ?= 0)%Qc
  end.

Definition signed_inf (c : comparison) : num :=
  match c with Lt => NInf | Gt => PInf | Eq => NaN end.

Definition mul_sign (c d : comparison) : comparison :=
  match c, d with
  | Eq, _ | _, Eq => Eq
  | Lt, Lt | Gt, Gt => Gt
  | _, _ => Lt
  end.

Definition mul (x y : num) : num :=
  match x, y with
  | NaN, _ | _, NaN => NaN
  | Fin a, Fin b => Fin (a * b)%Qc
  | _, _ => signed_inf (mul_sign (sign x) (sign y))
  end.

(** numpy division: a finite non-zero value over zero is an infinity, zero
    over zero and infinity over infinity are NaN (the zero divisor counts
    as positive, there being no negative zero here). *)
Definition div (x y : num) : num :=
  match x, y with
  | NaN, _ | _, NaN => NaN
  | (PInf | NInf), (PInf | NInf) => NaN
  | Fin _, (PInf | NInf) => Fin 0%Qc
  | (PInf | NInf), Fin b =>
      signed_inf (mul_sign (sign x) (if bool_decide (b = 0%Qc) then Gt else sign y))
  | Fin a, Fin b =>
      if bool_decide (b = 0%Qc) then signed_inf (sign x) else Fin (a / b)%Qc
  end.

(** Comparisons: every comparison with NaN is false. *)
Definition ltb (x y : num) : bool :=
  match x, y with
  | NaN, _ | _, NaN => false
  | _, NInf => false
  | NInf, _ => true
  | PInf, _ => false
  | Fin _, PInf => true
  | Fin a, Fin b => bool_decide (a < b)%Qc
  end.

Definition leb (x y : num) : bool :=
  match x, y with
  | NaN, _ | _, NaN => false
  | NInf, _ => true
  | _, PInf => true
  | _, NInf => false
  | PInf, _ => false
  | Fin a, Fin b => bool_decide (a <= b)%Qc
  end.

Definition gtb (x y : num) : bool := ltb y x.
Definition geb (x y : num) : bool := leb y x.

(** Python's [==] on floats. *)
Definition eqb (x y : num) : bool :=
  match x, y with
  | NaN, _ | _, NaN => false
  | _, _ => bool_decide (x = y)
  end.

(** [np.ceil] *)
Definition ceil (x : num) : num :=
  match x with
  | Fin q => of_Z (Qceiling q)
  | _ => x
  end.

(** The largest finite double, which [np.nan_to_num] puts in the place of
    an infinity. *)
Definition DBL_MAX : num := of_Z (2 ^ 1024 - 2 ^ 971).

(** [np.nan_to_num] *)
Definition nan_to_num (x : num) : num :=
  match x with
  | NaN => Fin 0%Qc
  | PInf => DBL_MAX
  | NInf => neg DBL_MAX
  | Fin _ => x
  end.

Definition zero : num := Fin 0%Qc.
Definition one : num := Fin 1%Qc.

End Num.
Export Num.

Declare Scope num_scope.
Delimit Scope num_scope with num.
Bind Scope num_scope with num.
Infix "+" := add : num_scope.
Infix "-" := sub : num_scope.
Infix "*" := mul : num_scope.
Infix "/" := div : num_scope.
Infix "<?" := ltb : num_scope.
Infix "<=?" := leb : num_scope.
Infix ">?" := gtb : num_scope.
Infix ">=?" := geb : num_scope.
Infix "==?" := eqb (at level 70) : num_scope.
Notation "# q" := (of_Q q%Q) (at level 1, format "# q") : num_scope.

Open Scope num_scope.

(** ** numpy and pandas helpers *)

(** [np.sum]: NaN propagates. *)
Definition np_sum (l : list num) : num := foldl add zero l.

(** [Series.sum()], which skips NaN. *)
Definition pd_sum (l : list num) : num :=
  np_sum (filter (λ x, isnan x = false) l).

(** [np.dot] of two vectors. *)
Definition np_dot (u v : list num) : num := np_sum (zip_with mul u v).

(** The smaller of two numbers, a NaN giving way to the other one. *)
Definition pd_min2 (x y : num) : num :=
  if isnan x then y else if isnan y then x else if y <? x then y else x.

(** [DataFrame.min(axis=1)] on one row: the least value that is not NaN,
    NaN when there is none. *)
Definition pd_min (l : list num) : num := foldl pd_min2 NaN l.

(** The order numpy sorts floats by: NaN comes last. *)
Definition np_less (a v : num) : bool :=
  (a <? v) || (isnan v && negb (isnan a)).

(** [np.searchsorted(a, v)] (side left) for an array [a] in ascending
    order, as numpy requires: the index of the first entry that is not
    below [v], the length of [a] when every entry is below. *)
Fixpoint searchsorted (a : list num) (v : num) : nat :=
  match a with
  | [] => 0
  | x :: a' => if np_less x v then S (searchsorted a' v) else 0
  end.

(** [np.argmax] on a vector, following numpy's loop: the first NaN wins,
    otherwise the first entry no later entry exceeds.  The accumulator is
    the index and value of the best entry so far. *)
Fixpoint argmax_from (i mi : nat) (mp : num) (l : list num) : nat :=
  match l with
  | [] => mi
  | x :: l' =>
      if x <=? mp then argmax_from (S i) mi mp l'
      else if isnan x then i
      else argmax_from (S i) i x l'
  end.

Definition np_argmax (l : list num) : result nat :=
  match l with
  | [] => Raise ValueError
  | x :: l' => Ok (if isnan x then 0 else argmax_from 1 0 x l')
  end.

(** [np.transpose(np.array(rows))] for a list of rows; rows of unequal
    length do not make a matrix. *)
Definition np_transpose (rows : list (list num)) : result (list (list num)) :=
  match rows with
  | [] => Ok []
  | r :: _ =>
      if forallb (λ r', bool_decide (length r' = length r)) rows
      then Ok ((λ j, omap (λ r', r' !! j) rows) <$> seq 0 (length r))
      else Raise ValueError
  end.

(** Strings in Python's order. *)
Definition str_le (a b : string) : Prop := String.leb a b = true.
#[global] Instance str_le_dec : RelDecision str_le.
Proof. intros a b. unfold str_le. apply _. Defined.

Definition sorted (l : list string) : list string := merge_sort str_le l.

(** ** The Parameter Set *)

(** A Python number that remembers whether it is an [int] or a [float]:
    [check_is_reasonable] insists on floats in the forms. *)
Inductive pynum : Type :=
  | PyInt (z : Z)
  | PyFloat (x : num).

#[global] Instance pynum_eq_dec : EqDecision pynum.
Proof. solve_decision. Defined.

Definition is_float (v : pynum) : bool :=
  match v with PyFloat _ => true | PyInt _ => false end.

Definition pyval (v : pynum) : num :=
  match v with PyInt z => of_Z z | PyFloat x => x end.

(** The declarative form of a Parameter Set: the arguments of
    [SqFtProForma.__init__], which are also the keys of the YAML
    configuration and of [to_dict]. *)
Module Config.
Record t : Type := mk {
  parcel_sizes : list num;
  fars : list num;
  uses : list string;
  residential_uses : list bool;
  forms : gmap string (gmap string pynum);
  profit_factor : num;
  building_efficiency : num;
  parcel_coverage : num;
  cap_rate : num;
  parking_rates : gmap string num;
  sqft_per_rate : num;
  parking_configs : list string;
  costs : gmap string (list num);
  heights_for_costs : list num;
  parking_sqft_d : gmap string num;
  parking_cost_d : gmap string num;
  height_per_story : num;
  max_retail_height : num;
  max_industrial_height : num;
  construction_months : gmap string (list num);
  construction_sqft_for_months : list num;
  loan_to_cost_ratio : num;
  drawdown_factor : num;
  interest_rate : num;
  loan_fees : num;
  residential_to_yearly : bool;
  forms_to_test : option (list string);
  only_built : bool;
  pass_through : option (list string);
  simple_zoning : bool;
  parcel_filter : option string
}.
End Config.

#[global] Instance Config_eq_dec : EqDecision Config.t.
Proof. solve_decision. Defined.

(** One row of a reference table: the columns of
    [SqFtProFormaReference._reference_dataframe]. *)
Record RefRow : Type := mkRefRow {
  far : num;
  pclsz : num;
  ref_building_sqft : num;
  spaces : num;
  park_sqft : num;
  total_built_sqft : num;
  parking_sqft_ratio : num;
  ref_stories : num;
  height : num;
  build_cost_sqft : num;
  build_cost : num;
  park_cost : num;
  cost : num;
  ave_cost_sqft : num;
  ref_construction_months : num
}.

(** The attributes of a [SqFtProForma] object after [_convert_types]. *)
Record Attrs : Type := mkAttrs {
  parcel_sizes : list num;
  fars : list num;
  uses : list string;
  residential_uses : list bool;
  forms : gmap string (list num);
  res_ratios : gmap string num;
  profit_factor : num;
  building_efficiency : num;
  parcel_coverage : num;
  cap_rate : num;
  parking_rates : list num;
  sqft_per_rate : num;
  parking_configs : list string;
  costs : list (list num);
  heights_for_costs : list num;
  parking_sqft_d : gmap string num;
  parking_cost_d : gmap string num;
  height_per_story : num;
  max_retail_height : num;
  max_industrial_height : num;
  construction_months : list (list num);
  construction_sqft_for_months : list num;
  loan_to_cost_ratio : num;
  drawdown_factor : num;
  interest_rate : num;
  loan_fees : num;
  residential_to_yearly : bool;
  forms_to_test : list string;
  only_built : bool;
  pass_through : list string;
  simple_zoning : bool;
  parcel_filter : option string
}.

(** A constructed [SqFtProForma]: its attributes and the reference table
    built once by [__init__]. *)
Record SqFtProForma : Type := mkSqFtProForma {
  attrs :> Attrs;
  reference_dict : gmap (string * string) (list RefRow)
}.

(** [SqFtProForma.check_is_reasonable], on the attributes as [__init__]
    received them. *)
Definition check_is_reasonable (c : Config.t) : result unit :=
  assert (bool_decide (length (filter (λ f, (f >? #20) = true) (Config.fars c)) = 0%nat));;
  assert (bool_decide (length (filter (λ f, (f <=? #0) = true) (Config.fars c)) = 0%nat));;
  for_each (λ kv : string * gmap string pynum,
      for_each (λ k2v2 : string * pynum, assert (is_float k2v2.2))
               (map_to_list kv.2);;
      for_each (λ k2v2 : string * pynum, assert (is_float k2v2.2))
               (map_to_list kv.2))
    (map_to_list (Config.forms c));;
  for_each (λ kv : string * num,
      assert (bool_decide (kv.1 ∈ Config.uses c));;
      assert ((#0 <=? kv.2) && (kv.2 <? #5)))
    (map_to_list (Config.parking_rates c));;
  for_each (λ kv : string * num,
      assert (bool_decide (kv.1 ∈ Config.parking_configs c));;
      assert ((#50 <=? kv.2) && (kv.2 <=? #1000)))
    (map_to_list (Config.parking_sqft_d c));;
  for_each (λ kv : string * num,
      assert (bool_decide (is_Some (Config.parking_cost_d c !! kv.1)));;
      assert ((#10 <=? kv.2) && (kv.2 <=? #300)))
    (map_to_list (Config.parking_sqft_d c));;
  for_each (λ v : num,
      if isinf v then Ok tt
      else assert ((#0 <=? v) && (v <=? #1000)))
    (Config.heights_for_costs c);;
  for_each (λ kv : string * list num,
      assert (bool_decide (kv.1 ∈ Config.uses c));;
      for_each (λ i : num, assert ((#10 <? i) && (i <? #1000))) kv.2)
    (map_to_list (Config.costs c)).

(** Boolean-mask indexing: the entries of [l] at the positions where [mask]
    is true. *)
Definition select {A} (mask : list bool) (l : list A) : list A :=
  (filter (λ p : bool * A, p.1 = true) (zip mask l)).*2.

(** The array a form becomes in [_convert_types]: one fraction per use, in
    the order of [uses], divided by their sum. *)
Definition form_array (uses : list string) (v : gmap string pynum) : list num :=
  let arr := (λ use, default zero (pyval <$> v !! use)) <$> uses in
  (λ x, x / np_sum arr) <$> arr.

(** [[d[use] for use in uses]] *)
Definition by_use {A} (uses : list string) (d : gmap string A) : result (list A) :=
  map_result (λ use, or_raise (KeyError use) (d !! use)) uses.

(** [SqFtProForma._convert_types], together with the defaults [__init__]
    fills in for [forms_to_test] and [pass_through]. *)
Definition _convert_types (c : Config.t) : result Attrs :=
  rates ← by_use (Config.uses c) (Config.parking_rates c);
  assert (bool_decide (length (Config.uses c) = length (Config.residential_uses c)));;
  let forms := form_array (Config.uses c) <$> Config.forms c in
  let res_ratios := (λ arr, pd_sum (select (Config.residential_uses c) arr)) <$> forms in
  costs ← by_use (Config.uses c) (Config.costs c) ≫= np_transpose;
  months ← by_use (Config.uses c) (Config.construction_months c) ≫= np_transpose;
  Ok {|
    parcel_sizes := Config.parcel_sizes c;
    fars := Config.fars c;
    uses := Config.uses c;
    residential_uses := Config.residential_uses c;
    forms := forms;
    res_ratios := res_ratios;
    profit_factor := Config.profit_factor c;
    building_efficiency := Config.building_efficiency c;
    parcel_coverage := Config.parcel_coverage c;
    cap_rate := Config.cap_rate c;
    parking_rates := rates;
    sqft_per_rate := Config.sqft_per_rate c;
    parking_configs := Config.parking_configs c;
    costs := costs;
    heights_for_costs := Config.heights_for_costs c;
    parking_sqft_d := Config.parking_sqft_d c;
    parking_cost_d := Config.parking_cost_d c;
    height_per_story := Config.height_per_story c;
    max_retail_height := Config.max_retail_height c;
    max_industrial_height := Config.max_industrial_height c;
    construction_months := months;
    construction_sqft_for_months := Config.construction_sqft_for_months c;
    loan_to_cost_ratio := Config.loan_to_cost_ratio c;
    drawdown_factor := Config.drawdown_factor c;
    interest_rate := Config.interest_rate c;
    loan_fees := Config.loan_fees c;
    residential_to_yearly := Config.residential_to_yearly c;
    forms_to_test :=
      match Config.forms_to_test c with
      | Some (x :: l) => x :: l
      | _ => sorted (map_to_list (Config.forms c)).*1
      end;
    only_built := Config.only_built c;
    pass_through := default [] (Config.pass_through c);
    simple_zoning := Config.simple_zoning c;
    parcel_filter := Config.parcel_filter c
  |}.

(** ** The reference table (class SqFtProFormaReference) *)

Section Reference.
Context (self : Attrs).

(** [self.parking_sqft_d[parking_config]] and
    [self.parking_cost_d[parking_config]] *)
Definition sqft_of (parking_config : string) : result num :=
  or_raise (KeyError parking_config) (parking_sqft_d self !! parking_config).
Definition cost_of (parking_config : string) : result num :=
  or_raise (KeyError parking_config) (parking_cost_d self !! parking_config).

(** The one parcel size of the table.  [columnize(parcel_sizes) *
    columnize(fars)] and the division by [tiled_parcel_sizes] only
    broadcast for a single parcel size (or when both lists are empty, and
    then every column is empty). *)
Definition tiled_parcel_size : result num :=
  match parcel_sizes self, fars self with
  | [p], _ => Ok p
  | [], [] => Ok NaN
  | _, _ => Raise ValueError
  end.

(** [np.sum(uses_distrib * self.parking_rates)] *)
Definition weighted_parking_rate (uses_distrib : list num) : num :=
  np_sum (zip_with mul uses_distrib (parking_rates self)).

(** [SqFtProFormaReference._building_bulk] *)
Definition _building_bulk (uses_distrib : list num) (parking_config : string)
    : result (list num) :=
  p ← tiled_parcel_size;
  let building_bulk := (λ f, p * f) <$> fars self in
  if bool_decide (parking_config = "deck") then
    sq ← sqft_of parking_config;
    Ok ((λ b, b / (one + weighted_parking_rate uses_distrib * sq
                          / sqft_per_rate self)) <$> building_bulk)
  else Ok building_bulk.

(** The surface branch of [_stories] on one entry, before the division by
    the parcel coverage: the two masks turn a negative story count and one
    above five into NaN. *)
Definition surface_stories (p sq bulk stalls : num) : num :=
  let stories := bulk / (p - stalls * sq) in
  let stories := if negb (isnan stories) && (stories <? #0) then NaN else stories in
  let stories := if negb (isnan stories) && (stories >? #5) then NaN else stories in
  stories.

(** [SqFtProFormaReference._stories] *)
Definition _stories (parking_config : string) (building_bulk parking_stalls : list num)
    : result (list num) :=
  p ← tiled_parcel_size;
  stories ←
    (if bool_decide (parking_config = "underground") then
       Ok ((λ b, b / p) <$> building_bulk)
     else if bool_decide (parking_config = "deck") then
       sq ← sqft_of parking_config;
       Ok (zip_with (λ b s, (b + s * sq) / p) building_bulk parking_stalls)
     else if bool_decide (parking_config = "surface") then
       sq ← sqft_of parking_config;
       Ok (zip_with (surface_stories p sq) building_bulk parking_stalls)
     else Raise (UnboundLocalError "stories"));
  Ok ((λ s, s / parcel_coverage self) <$> (stories : list num)).

(** [SqFtProFormaReference._park_sqft]; the surface configuration returns
    the scalar 0, which the table broadcasts down the column. *)
Definition _park_sqft (parking_config : string) (parking_stalls : list num)
    : result (list num) :=
  if bool_decide (parking_config = "underground")
     || bool_decide (parking_config = "deck") then
    sq ← sqft_of parking_config;
    Ok ((λ s, s * sq) <$> parking_stalls)
  else if bool_decide (parking_config = "surface") then
    Ok ((λ _, zero) <$> parking_stalls)
  else Raise TypeError.

(** What [np.squeeze] followed by [np.dot] and the masked assignment of
    [_building_cost] do to the shapes: with one far the product is a
    scalar, which takes no masked assignment, unless there is one use as
    well; with one use and another number of fars the shapes do not
    match. *)
Definition squeeze_dot_shapes (nfars nuses : nat) : result unit :=
  match nfars, nuses with
  | 1, 1 => Ok tt
  | 1, _ => Raise TypeError
  | _, 1 => Raise ValueError
  | _, _ => Ok tt
  end%nat.

(** [SqFtProFormaReference._building_cost] *)
Definition _building_cost (use_mix : list num) (stories : list num)
    : result (list num) :=
  let heights := (λ s, s * height_per_story self) <$> stories in
  let costs_idx :=
    (λ h, if isnan h then 0%nat else searchsorted (heights_for_costs self) h)
      <$> heights in
  rows ← map_result (λ i, or_raise IndexError (costs self !! i)) costs_idx;
  squeeze_dot_shapes (length stories) (length use_mix);;
  let costs := (λ row, np_dot row use_mix) <$> rows in
  Ok (zip_with (λ s c, if isnan s then NaN else c) stories costs).

(** [SqFtProFormaReference._construction_time] *)
Definition _construction_time (use_mix : list num) (building_bulks : list num)
    : result (list num) :=
  let month_indices : list nat :=
    searchsorted (construction_sqft_for_months self) <$> building_bulks in
  months_array_all_uses ←
    map_result (λ i, or_raise IndexError (construction_months self !! i))
               month_indices;
  Ok ((λ row, np_dot row use_mix) <$> (months_array_all_uses : list (list num))).

(** One row of the table from the values of its far in each column. *)
Definition reference_row (name : string) (p : num)
    (f building_bulk parking_stalls park_sqft park_cost stories
       building_cost_per_sqft construction_months : num) : RefRow :=
  let total_built_sqft := building_bulk + park_sqft in
  let stories_col := ceil stories in
  let build_cost := building_cost_per_sqft * building_bulk in
  let cost := build_cost + park_cost in
  let ave_cost_sqft := (cost / total_built_sqft) * profit_factor self in
  let ave_cost_sqft :=
    if bool_decide (name = "retail") && (f >? max_retail_height self)
    then NaN else ave_cost_sqft in
  let ave_cost_sqft :=
    if bool_decide (name = "industrial") && (f >? max_industrial_height self)
    then NaN else ave_cost_sqft in
  {| far := f;
     pclsz := p;
     ref_building_sqft := building_bulk;
     spaces := parking_stalls;
     park_sqft := park_sqft;
     total_built_sqft := total_built_sqft;
     parking_sqft_ratio := park_sqft / total_built_sqft;
     ref_stories := stories_col;
     height := stories_col * height_per_story self;
     build_cost_sqft := building_cost_per_sqft;
     build_cost := build_cost;
     park_cost := park_cost;
     cost := cost;
     ave_cost_sqft := ave_cost_sqft;
     ref_construction_months := construction_months |}.

(** The columns of a table, one list per column, put together row by
    row. *)
Fixpoint reference_rows (name : string) (p : num)
    (fs bulk stalls psq pcost stories bcost months : list num) : list RefRow :=
  match fs, bulk, stalls, psq, pcost, stories, bcost, months with
  | f :: fs, b :: bulk, s :: stalls, q :: psq, c :: pcost, st :: stories,
    bc :: bcost, m :: months =>
      reference_row name p f b s q c st bc m
        :: reference_rows name p fs bulk stalls psq pcost stories bcost months
  | _, _, _, _, _, _, _, _ => []
  end.

(** [SqFtProFormaReference._reference_dataframe] *)
Definition _reference_dataframe (name : string) (uses_distrib : list num)
    (parking_config : string) : result (list RefRow) :=
  building_bulk ← _building_bulk uses_distrib parking_config;
  let parking_stalls :=
    (λ b, b * weighted_parking_rate uses_distrib / sqft_per_rate self)
      <$> building_bulk in
  stories ← _stories parking_config building_bulk parking_stalls;
  park_sqft ← _park_sqft parking_config parking_stalls;
  pc ← cost_of parking_config;
  sq ← sqft_of parking_config;
  let park_cost := (λ s, pc * s * sq) <$> parking_stalls in
  building_cost_per_sqft ← _building_cost uses_distrib stories;
  let total_built_sqft := zip_with add building_bulk park_sqft in
  construction_months ← _construction_time uses_distrib total_built_sqft;
  p ← tiled_parcel_size;
  Ok (reference_rows name p (fars self) building_bulk parking_stalls park_sqft
        park_cost stories building_cost_per_sqft construction_months).

(** [SqFtProFormaReference._generate_reference] *)
Definition _generate_reference : result (gmap (string * string) (list RefRow)) :=
  let keys := sorted (map_to_list (forms self)).*1 in
  foldl (λ acc (key : string * string),
           df_d ← acc;
           uses_distrib ← or_raise (KeyError key.1) (forms self !! key.1);
           df ← _reference_dataframe key.1 uses_distrib key.2;
           Ok (<[key := df]> df_d))
        (Ok ∅)
        (name ← keys; parking_config ← parking_configs self; [(name, parking_config)]).

End Reference.

(** [SqFtProForma.__init__] *)
Definition __init__ (c : Config.t) : result SqFtProForma :=
  check_is_reasonable c;;
  self ← _convert_types c;
  reference ← _generate_reference self;
  Ok {| attrs := self; reference_dict := reference |}.

(** [SqFtProForma.get_defaults] *)
Definition get_defaults : Config.t := {|
  Config.building_efficiency := #0.7;
  Config.cap_rate := #0.05;
  Config.costs := {[
    "industrial" := [ #140; #175; #200; #230];
    "office" := [ #160; #175; #200; #230];
    "residential" := [ #170; #190; #210; #240];
    "retail" := [ #160; #175; #200; #230] ]};
  Config.fars := [ #0.1; #0.25; #0.5; #0.75; #1.0; #1.5; #1.8;
                  #2.0; #2.25; #2.5; #2.75; #3.0; #3.25;
                  #3.5; #3.75; #4.0; #4.5; #5.0; #5.5; #6.0;
                  #6.5; #7.0; #9.0; #11.0];
  Config.forms := {[
    "industrial" := {[ "industrial" := PyFloat #1.0 ]};
    "mixedoffice" := {[ "office" := PyFloat #0.7; "residential" := PyFloat #0.3 ]};
    "mixedresidential" := {[ "residential" := PyFloat #0.9; "retail" := PyFloat #0.1 ]};
    "office" := {[ "office" := PyFloat #1.0 ]};
    "residential" := {[ "residential" := PyFloat #1.0 ]};
    "retail" := {[ "retail" := PyFloat #1.0 ]} ]};
  Config.height_per_story := #12.0;
  Config.heights_for_costs := [ #15; #55; #120; PInf];
  Config.max_industrial_height := #2.0;
  Config.max_retail_height := #2.0;
  Config.parcel_coverage := #0.8;
  Config.parcel_sizes := [ #10000.0];
  Config.parking_configs := ["surface"; "deck"; "underground"];
  Config.parking_cost_d := {[ "deck" := #90; "surface" := #30; "underground" := #110 ]};
  Config.parking_rates := {[
    "industrial" := #0.6; "office" := #1.0; "residential" := #1.0; "retail" := #2.0 ]};
  Config.parking_sqft_d := {[
    "deck" := #250.0; "surface" := #300.0; "underground" := #250.0 ]};
  Config.profit_factor := #1.1;
  Config.residential_uses := [false; false; false; true];
  Config.sqft_per_rate := #1000.0;
  Config.uses := ["retail"; "industrial"; "office"; "residential"];
  Config.residential_to_yearly := true;
  Config.parcel_filter := None;
  Config.only_built := true;
  Config.forms_to_test := Some ["industrial"; "mixedoffice"; "mixedresidential";
                                "office"; "residential"; "retail"];
  Config.pass_through := Some [];
  Config.simple_zoning := false;
  Config.construction_months := {[
    "industrial" := [ #12.0; #14.0; #18.0; #24.0];
    "office" := [ #12.0; #14.0; #18.0; #24.0];
    "residential" := [ #12.0; #14.0; #18.0; #24.0];
    "retail" := [ #12.0; #14.0; #18.0; #24.0] ]};
  Config.construction_sqft_for_months := [ #10000; #20000; #50000; PInf];
  Config.loan_to_cost_ratio := #0.7;
  Config.drawdown_factor := #0.6;
  Config.interest_rate := #0.05;
  Config.loan_fees := #0.02
|}.

(** [SqFtProForma.from_defaults] *)
Definition from_defaults : result SqFtProForma := __init__ get_defaults.

(** ** Site tables *)

(** A pandas DataFrame of numbers: the row labels and the columns by name.
    Every column is as long as the index. *)
Record DataFrame : Type := mkDataFrame {
  index : list string;
  columns : gmap string (list num)
}.

#[global] Instance DataFrame_eq_dec : EqDecision DataFrame.
Proof. solve_decision. Defined.

(** [df[name]] *)
Definition col (df : DataFrame) (name : string) : result (list num) :=
  or_raise (KeyError name) (columns df !! name).

(** [df.name] *)
Definition attr (df : DataFrame) (name : string) : result (list num) :=
  or_raise (AttributeError name) (columns df !! name).

(** [df[name] = values] *)
Definition set_col (df : DataFrame) (name : string) (values : list num) : DataFrame :=
  {| index := index df; columns := <[name := values]> (columns df) |}.

(** [df[name] = pd.Series()]: the empty series aligns with no label, so
    the whole column is NaN. *)
Definition set_col_nan (df : DataFrame) (name : string) : DataFrame :=
  set_col df name (replicate (length (index df)) NaN).

(** The rows of [df] where [mask] is true. *)
Definition select_rows (mask : list bool) (df : DataFrame) : DataFrame :=
  {| index := select mask (index df); columns := select mask <$> columns df |}.

(** Row [j] of the columns [cols] *)
Definition row_of (cols : list (list num)) (j : nat) : list num :=
  omap (λ c : list num, c !! j) cols.

(** ** The lookup *)

(** A cell of a result table: the [parking_config] column holds strings,
    every other column numbers. *)
Inductive cell : Type :=
  | CStr (s : string)
  | CNum (x : num).

#[global] Instance cell_eq_dec : EqDecision cell.
Proof. solve_decision. Defined.

(** One row of a result table: its label, its parking configuration and
    its numeric columns by name. *)
Record OutRow : Type := mkOutRow {
  label : string;
  parking_config : cell;
  vals : gmap string num
}.

#[global] Instance OutRow_eq_dec : EqDecision OutRow.
Proof. solve_decision. Defined.

(** [outdf[name] = v] on one row. *)
Definition set_val (name : string) (v : num) (r : OutRow) : OutRow :=
  if bool_decide (name = "parking_config")
  then {| label := label r; parking_config := CNum v; vals := vals r |}
  else {| label := label r; parking_config := parking_config r;
          vals := <[name := v]> (vals r) |}.

(** [outdf.name] on one row, for a numeric column. *)
Definition get_val (name : string) (r : OutRow) : num :=
  default NaN (vals r !! name).

(** A two-dimensional array (fars by sites), kept as the list of its
    columns: one list over the fars for each site. *)
Definition matrix : Type := list (list num).

Definition same_shape (a b : matrix) : bool :=
  bool_decide (length <$> a = length <$> b).

(** The optional callables of [lookup].  They are given the form, the
    working site table and, for the last three, the array to replace. *)
Record Hooks : Type := mkHooks {
  modify_df : option (string → DataFrame → result DataFrame);
  modify_revenues : option (string → DataFrame → matrix → result matrix);
  modify_costs : option (string → DataFrame → matrix → result matrix);
  modify_profits : option (string → DataFrame → matrix → result matrix)
}.

Definition no_hooks : Hooks :=
  {| modify_df := None; modify_revenues := None;
     modify_costs := None; modify_profits := None |}.

(** [hook(self, form, df, arr) if hook else arr] *)
Definition apply_hook (hook : option (string → DataFrame → matrix → result matrix))
    (form : string) (df : DataFrame) (arr : matrix) : result matrix :=
  match hook with
  | Some h => h form df arr
  | None => Ok arr
  end.

(** [a - b] on arrays: their shapes have to agree. *)
Definition matrix_sub (a b : matrix) : result matrix :=
  if same_shape a b then Ok (zip_with (zip_with sub) a b) else Raise ValueError.

(** [twod_get(indexes, arr)]: entry [indexes[j]] of column [j]. *)
Definition twod_get (indexes : list nat) (arr : matrix) : result (list num) :=
  map_result (λ ic : nat * list num, or_raise IndexError (ic.2 !! ic.1))
             (zip indexes arr).

(** [profit[np.isnan(profit)] = -np.inf] *)
Definition nan_to_neginf (profit : matrix) : matrix :=
  fmap (M := list) (fmap (M := list) (λ x, if isnan x then NInf else x)) profit.

Section Lookup.
Context (self : SqFtProForma).

(** [df[names].min(axis=1)] *)
Definition min_axis1 (df : DataFrame) (names : list string) : result (list num) :=
  cols ← map_result (col df) names;
  Ok ((λ j, pd_min (row_of cols j)) <$> seq 0 (length (index df))).

(** [SqFtProForma._min_max_fars].  The method adds the column
    [max_far_from_dua] to the table it is given, so the table is returned
    with the series. *)
Definition _min_max_fars (df : DataFrame) (resratio : num)
    : result (list num * DataFrame) :=
  if bool_decide (is_Some (columns df !! "max_dua")) && (resratio >? #0) then
    assert (bool_decide (is_Some (columns df !! "ave_unit_size")));;
    max_dua ← attr df "max_dua";
    parcel_size ← attr df "parcel_size";
    ave_unit_size ← attr df "ave_unit_size";
    let max_far_from_dua :=
      zip_with (λ d (pa : num * num),
                  d * (pa.1 / #43560) * pa.2
                    / building_efficiency self / resratio / pa.1)
               max_dua (zip parcel_size ave_unit_size) in
    let df := set_col df "max_far_from_dua" max_far_from_dua in
    m ← min_axis1 df ["max_far_from_heights"; "max_far"; "max_far_from_dua"];
    Ok (m, df)
  else
    m ← min_axis1 df ["max_far_from_heights"; "max_far"];
    Ok (m, df).

(** The far column of one site: the fars of the reference table, with
    those the site's zoning does not allow turned into NaN. *)
Definition site_fars (dev_info : list RefRow) (min_max_far max_height : num)
    : list num :=
  (λ r : RefRow,
     let f := far r in
     let f := if negb (isnan f) && (nan_to_num f >? min_max_far + #0.01)
              then NaN else f in
     let f := if negb (isnan (height r))
                 && (nan_to_num (height r) >? max_height + #0.01)
              then NaN else f in
     f) <$> dev_info.

(** The arrays of the profit calculation for one site, each a list over
    the fars. *)
Record SiteArrays : Type := mkSiteArrays {
  sa_fars : list num;
  sa_building_bulks : list num;
  sa_building_costs : list num;
  sa_total_financing_costs : list num;
  sa_total_development_costs : list num;
  sa_building_revenue : list num
}.

Definition site_arrays (dev_info : list RefRow)
    (min_max_far max_height parcel_size land_cost weighted_rent : num)
    : SiteArrays :=
  let fars := site_fars dev_info min_max_far max_height in
  let building_bulks := (λ f, f * parcel_size) <$> fars in
  let building_costs :=
    zip_with (λ b (r : RefRow), b * ave_cost_sqft r) building_bulks dev_info in
  let total_construction_costs := (λ c, c + land_cost) <$> building_costs in
  let loan_amount :=
    (λ c, c * loan_to_cost_ratio self) <$> total_construction_costs in
  let interest :=
    zip_with (λ l (r : RefRow),
                l * drawdown_factor self
                  * (interest_rate self / #12 * ref_construction_months r))
             loan_amount dev_info in
  let points := (λ l, l * loan_fees self) <$> loan_amount in
  let total_financing_costs := zip_with add interest points in
  let total_development_costs :=
    zip_with add total_construction_costs total_financing_costs in
  let building_revenue :=
    zip_with (λ b (r : RefRow),
                b * (one - parking_sqft_ratio r) * building_efficiency self
                  * weighted_rent / cap_rate self)
             building_bulks dev_info in
  {| sa_fars := fars;
     sa_building_bulks := building_bulks;
     sa_building_costs := building_costs;
     sa_total_financing_costs := total_financing_costs;
     sa_total_development_costs := total_development_costs;
     sa_building_revenue := building_revenue |}.

(** The row of [outdf] for one site, before the pass-through columns. *)
Definition out_row (parking_config : string) (lbl : string)
    (building_sqft building_cost parking_ratio height total_cost
       building_revenue max_profit_far max_profit construction_time
       financing_cost : num) : OutRow :=
  {| label := lbl;
     parking_config := CStr parking_config;
     vals := {[
       "building_sqft" := building_sqft;
       "building_cost" := building_cost;
       "parking_ratio" := parking_ratio;
       "stories" := height / height_per_story self;
       "total_cost" := total_cost;
       "building_revenue" := building_revenue;
       "max_profit_far" := max_profit_far;
       "max_profit" := max_profit;
       "construction_time" := construction_time;
       "financing_cost" := financing_cost ]} |}.

(** [outdf[self.pass_through] = df[self.pass_through]] on row [j]. *)
Definition set_pass_through (names : list string) (cols : list (list num))
    (j : nat) (r : OutRow) : OutRow :=
  foldl (λ r (nc : string * list num), set_val nc.1 (default NaN (nc.2 !! j)) r)
        r (zip names cols).

(** The two area columns, computed from the [building_sqft] column as it
    stands after the pass-through assignment. *)
Definition set_sqft_split (resratio nonresratio : num) (r : OutRow) : OutRow :=
  let r := set_val "residential_sqft"
             (get_val "building_sqft" r * building_efficiency self * resratio) r in
  set_val "non_residential_sqft"
    (get_val "building_sqft" r * building_efficiency self * nonresratio) r.

(** [outdf.query('max_profit > 0')], or the rows whose [max_profit] is
    not minus infinity. *)
Definition keep_row (r : OutRow) : bool :=
  if only_built self then get_val "max_profit" r >? #0
  else negb (bool_decide (get_val "max_profit" r = NInf)).

(** [SqFtProForma._lookup_parking_cfg] *)
Definition _lookup_parking_cfg (form parking_config : string) (df : DataFrame)
    (hooks : Hooks) : result (list OutRow) :=
  (* df = df.copy(): from here on [df] is the method's own table *)
  dev_info ← or_raise (KeyError form)
               (reference_dict self !! (form, parking_config));
  resratio ← or_raise (KeyError form) (res_ratios self !! form);
  let nonresratio := one - resratio in
  rents ← map_result (col df) (uses self);
  mix ← or_raise (KeyError form) (forms self !! form);
  let df := set_col df "weighted_rent"
              ((λ j, np_dot (row_of rents j) mix) <$> seq 0 (length (index df))) in
  df ← match modify_df hooks with Some h => h form df | None => Ok df end;
  max_height ← attr df "max_height";
  let df := set_col df "max_far_from_heights"
              ((λ h, h / height_per_story self * parcel_coverage self)
                 <$> max_height) in
  '(min_max_fars, df) ← _min_max_fars df resratio;
  let df := set_col df "min_max_fars" min_max_fars in
  df ← (if only_built self then
          parcel_size ← col df "parcel_size";
          Ok (select_rows
                (zip_with (λ m p, (m >? #0) && (p >? #0)) min_max_fars parcel_size)
                df)
        else Ok df);
  min_max_fars ← attr df "min_max_fars";
  max_height ← attr df "max_height";
  parcel_size ← attr df "parcel_size";
  land_cost ← attr df "land_cost";
  weighted_rent ← attr df "weighted_rent";
  let sites : list SiteArrays :=
    (λ j, site_arrays dev_info
            (default NaN (min_max_fars !! j)) (default NaN (max_height !! j))
            (default NaN (parcel_size !! j)) (default NaN (land_cost !! j))
            (default NaN (weighted_rent !! j)))
      <$> seq 0 (length (index df)) in
  building_revenue ←
    apply_hook (modify_revenues hooks) form df (sa_building_revenue <$> sites);
  total_development_costs ←
    apply_hook (modify_costs hooks) form df (sa_total_development_costs <$> sites);
  profit ← matrix_sub building_revenue total_development_costs;
  profit ← apply_hook (modify_profits hooks) form df profit;
  let profit := nan_to_neginf profit in
  (if bool_decide (dev_info = []) then Raise ValueError else Ok tt);;
  maxprofitind ← map_result np_argmax profit;
  building_sqft ← twod_get maxprofitind (sa_building_bulks <$> sites);
  building_cost ← twod_get maxprofitind (sa_building_costs <$> sites);
  parking_ratio ←
    map_result (λ i, or_raise IndexError (parking_sqft_ratio <$> dev_info !! i))
               maxprofitind;
  heights ← twod_get maxprofitind ((λ _, height <$> dev_info) <$> sites);
  total_cost ← twod_get maxprofitind total_development_costs;
  revenue ← twod_get maxprofitind building_revenue;
  max_profit_far ← twod_get maxprofitind (sa_fars <$> sites);
  max_profit ← twod_get maxprofitind profit;
  construction_time ←
    twod_get maxprofitind ((λ _, ref_construction_months <$> dev_info) <$> sites);
  financing_cost ← twod_get maxprofitind (sa_total_financing_costs <$> sites);
  (if bool_decide (length maxprofitind = length (index df)) then Ok tt
   else Raise ValueError);;
  passed ← (if bool_decide (pass_through self = []) then Ok []
            else map_result (col df) (pass_through self));
  let outdf :=
    (λ j,
       let at_j (l : list num) := default NaN (l !! j) in
       let r := out_row parking_config (default "" (index df !! j))
                  (at_j building_sqft) (at_j building_cost) (at_j parking_ratio)
                  (at_j heights) (at_j total_cost) (at_j revenue)
                  (at_j max_profit_far) (at_j max_profit)
                  (at_j construction_time) (at_j financing_cost) in
       let r := set_pass_through (pass_through self) passed j r in
       set_sqft_split resratio nonresratio r)
      <$> seq 0 (length (index df)) in
  Ok (filter (λ r, keep_row r = true) outdf).

End Lookup.

(** [SqFtProForma._simple_zoning].  The assignments are made on the table
    the method is given, which is the caller's: the table returned is that
    same object. *)
Definition _simple_zoning (form : string) (df : DataFrame) : DataFrame :=
  if bool_decide (form = "residential") then
    set_col_nan (set_col_nan df "max_far") "max_height"
  else
    set_col_nan (set_col_nan df "max_dua") "max_height".

(** The order pandas sorts the labels of a pivot by. *)
Definition cell_le (a b : cell) : Prop :=
  match a, b with
  | CStr s, CStr t => str_le s t
  | CNum x, CNum y => (x <=? y) = true
  | CNum _, CStr _ => True
  | CStr _, CNum _ => False
  end.
#[global] Instance cell_le_dec : RelDecision cell_le.
Proof. intros [s|x] [t|y]; simpl; apply _. Defined.

(** The row of [df] with the given label and parking configuration. *)
Definition find_row (df : list OutRow) (lbl : string) (c : cell) : option OutRow :=
  list_find (λ r, label r = lbl ∧ parking_config r = c) df ≫= λ ir, Some ir.2.

(** One row of [df.pivot(columns="parking_config", values="max_profit")]:
    for every configuration, in the order of the pivot's columns, the
    [max_profit] of the site under it, skipping the configurations without
    a value (no row, or a NaN). *)
Definition pivot_row (df : list OutRow) (cfgs : list cell) (lbl : string)
    : list (cell * num) :=
  omap (λ c, r ← find_row df lbl c;
             let p := get_val "max_profit" r in
             if isnan p then None else Some (c, p)) cfgs.

(** [idxmax(axis=1)] on one row of the pivot. *)
Definition idxmax (row : list (cell * num)) : result cell :=
  i ← np_argmax row.*2;
  or_raise ValueError (row.*1 !! i).

(** [SqFtProForma._max_profit_parking] *)
Definition _max_profit_parking (df : list OutRow) : result (list OutRow) :=
  (* pivot refuses an index with duplicate entries *)
  (if bool_decide (NoDup ((λ r, (label r, parking_config r)) <$> df)) then Ok tt
   else Raise ValueError);;
  let labels := sorted (remove_dups (label <$> df)) in
  let cfgs := merge_sort cell_le (remove_dups (parking_config <$> df)) in
  map_result (λ lbl,
      c ← idxmax (pivot_row df cfgs lbl);
      or_raise (KeyError lbl) (find_row df lbl c)) labels.

(** [result["residential"] /= self.cap_rate] *)
Definition to_yearly (cap_rate : num) (r : OutRow) : result OutRow :=
  x ← or_raise (KeyError "residential") (vals r !! "residential");
  Ok (set_val "residential" (x / cap_rate) r).

(** [SqFtProForma.lookup].  The site table is passed by reference: the
    second component of the result is the caller's table as the call
    leaves it. *)
Definition lookup (self : SqFtProForma) (form : string) (df : DataFrame)
    (hooks : Hooks) : result (list OutRow) * DataFrame :=
  let df := if simple_zoning self then _simple_zoning form df else df in
  (match parking_configs self with
   | [] => Raise ValueError
   | _ =>
       frames ← map_result (λ parking_config,
                   _lookup_parking_cfg self form parking_config df hooks)
                 (parking_configs self);
       let lookup := concat frames in
       if bool_decide (lookup = []) then Ok []
       else
         result ← _max_profit_parking lookup;
         if residential_to_yearly self
            && bool_decide ("residential" ∈ pass_through self)
         then map_result (to_yearly (cap_rate self)) result
         else Ok result
   end, df).

(** The site table of [test_reasonable_feasibility_results]. *)
Definition test_df : DataFrame := {|
  index := ["a"; "b"; "c"];
  columns := {[
    "residential" := [ #30; #20; #10];
    "office" := [ #15; #15; #15];
    "retail" := [ #12; #12; #12];
    "industrial" := [ #12; #12; #12];
    "land_cost" := [ #100000; #100000; #100000];
    "parcel_size" := [ #1000; #1000; #1000];
    "max_far" := [ #2.0; #2.0; #2.0];
    "max_height" := [ #80; #80; #80] ]}
|}.

(** ** The declarative representation *)









(** ** Parameter sets and site tables of the examples *)

(** [settings = get_defaults(); settings[...] = ...] for the three settings
    the examples change. *)
Definition with_settings (c : Config.t) (sqft_d cost_d : gmap string num)
    (zoning : bool) : Config.t := {|
  Config.parcel_sizes := Config.parcel_sizes c;
  Config.fars := Config.fars c;
  Config.uses := Config.uses c;
  Config.residential_uses := Config.residential_uses c;
  Config.forms := Config.forms c;
  Config.profit_factor := Config.profit_factor c;
  Config.building_efficiency := Config.building_efficiency c;
  Config.parcel_coverage := Config.parcel_coverage c;
  Config.cap_rate := Config.cap_rate c;
  Config.parking_rates := Config.parking_rates c;
  Config.sqft_per_rate := Config.sqft_per_rate c;
  Config.parking_configs := Config.parking_configs c;
  Config.costs := Config.costs c;
  Config.heights_for_costs := Config.heights_for_costs c;
  Config.parking_sqft_d := sqft_d;
  Config.parking_cost_d := cost_d;
  Config.height_per_story := Config.height_per_story c;
  Config.max_retail_height := Config.max_retail_height c;
  Config.max_industrial_height := Config.max_industrial_height c;
  Config.construction_months := Config.construction_months c;
  Config.construction_sqft_for_months := Config.construction_sqft_for_months c;
  Config.loan_to_cost_ratio := Config.loan_to_cost_ratio c;
  Config.drawdown_factor := Config.drawdown_factor c;
  Config.interest_rate := Config.interest_rate c;
  Config.loan_fees := Config.loan_fees c;
  Config.residential_to_yearly := Config.residential_to_yearly c;
  Config.forms_to_test := Config.forms_to_test c;
  Config.only_built := Config.only_built c;
  Config.pass_through := Config.pass_through c;
  Config.simple_zoning := zoning;
  Config.parcel_filter := Config.parcel_filter c
|}.

(** The defaults with surface parking at 5 per square foot, below the
    range of parking costs. *)
Definition cheap_surface_parking : Config.t :=
  with_settings get_defaults (Config.parking_sqft_d get_defaults)
    (<["surface" := #5]> (Config.parking_cost_d get_defaults)) false.

(** The defaults with 500 square feet per surface stall, inside the range
    of stall areas. *)
Definition wide_surface_stalls : Config.t :=
  with_settings get_defaults
    (<["surface" := #500]> (Config.parking_sqft_d get_defaults))
    (Config.parking_cost_d get_defaults) false.

(** The defaults with [simple_zoning] set. *)
Definition simple_zoning_settings : Config.t :=
  with_settings get_defaults (Config.parking_sqft_d get_defaults)
    (Config.parking_cost_d get_defaults) true.

(** The test table with a density cap and no average unit size. *)
Definition test_df_max_dua : DataFrame :=
  set_col test_df "max_dua" [ #10; #10; #10].

(** The ranges the Parameter Set is to be validated against, as the
    specification lists them. *)
Definition listed_ranges_hold (c : Config.t) : bool :=
  forallb (λ f, (#0 <? f) && (f <=? #20)) (Config.fars c)
  && forallb (λ kv : string * num, (#0 <=? kv.2) && (kv.2 <? #5))
       (map_to_list (Config.parking_rates c))
  && forallb (λ kv : string * num, (#50 <=? kv.2) && (kv.2 <=? #1000))
       (map_to_list (Config.parking_sqft_d c))
  && forallb (λ kv : string * num, (#10 <=? kv.2) && (kv.2 <=? #300))
       (map_to_list (Config.parking_cost_d c))
  && forallb (λ v, isinf v || ((#0 <=? v) && (v <=? #1000)))
       (Config.heights_for_costs c)
  && forallb (λ kv : string * list num,
                forallb (λ i, (#10 <? i) && (i <? #1000)) kv.2)
       (map_to_list (Config.costs c)).

(** The value of a call that returned. *)
Definition get_ok {A} (r : result A) : is_ok r = true → A :=
  match r with
  | Ok a => λ _, a
  | Raise _ => λ H, match Bool.diff_false_true H with end
  end.

(** [pf = SqFtProForma.from_defaults()] *)
Definition default_pf : SqFtProForma :=
  get_ok from_defaults (eq_refl true <: is_ok from_defaults = true).

(** The object built from the defaults with [simple_zoning] set. *)
Definition simple_zoning_pf : SqFtProForma :=
  get_ok (__init__ simple_zoning_settings)
         (eq_refl true <: is_ok (__init__ simple_zoning_settings) = true).

(** The table [lookup] passes to [_lookup_parking_cfg]: the caller's, after
    [_simple_zoning] when that is configured. *)
Definition working_table (self : SqFtProForma) (form : string) (df : DataFrame)
    : DataFrame :=
  if simple_zoning self then _simple_zoning form df else df.

(** A call that does not end in a failed assertion. *)
Definition no_assert {A} (r : result A) : Prop := r ≠ Raise AssertionError.

(** The cost per area of a reference entry in the words of the
    specification: the use-mix-weighted cost vector of the bracket whose
    breakpoint is the first at or above the height of the entry, the height
    being the ceiling of the stories times the height per story; NaN when
    the stories or the height are. *)
Definition spec_cost_per_area (self : Attrs) (use_mix : list num) (r : RefRow)
    : result num :=
  if isnan (ref_stories r) || isnan (height r) then Ok NaN
  else
    row ← or_raise IndexError
            (costs self !! searchsorted (heights_for_costs self) (height r));
    Ok (np_dot row use_mix).

(** The reference table and the use mix of a form in the default Parameter
    Set. *)
Definition default_table (form parking_config : string) : list RefRow :=
  default [] (reference_dict default_pf !! (form, parking_config)).
Definition default_mix (form : string) : list num :=
  default [] (forms default_pf !! form).





(** A site that allows a far of 2.75, at rents that make the mixed office
    form worth building. *)
Definition mixed_use_df : DataFrame := {|
  index := ["a"];
  columns := {[
    "residential" := [ #50];
    "office" := [ #50];
    "retail" := [ #12];
    "industrial" := [ #12];
    "land_cost" := [ #100000];
    "parcel_size" := [ #1000];
    "max_far" := [ #2.75];
    "max_height" := [ #200] ]}
|}.

(** [df[name].iloc[j]]: the value of a column at a row, if the table has
    both. *)
Definition value_at (df : DataFrame) (name : string) (j : nat) : option num :=
  columns df !! name ≫= (.!! j).

(** The result of the lookup of [test_reasonable_feasibility_results]. *)
Definition residential_lookup : list OutRow :=
  get_ok (lookup default_pf "residential" test_df no_hooks).1
    (eq_refl true <: is_ok (lookup default_pf "residential" test_df no_hooks).1 = true).

(** The site of [mixed_use_df] at a retail rent that makes the retail form
    worth building, and the result of the lookup of that form. *)
Definition retail_df : DataFrame := set_col mixed_use_df "retail" [ #50].
Definition retail_lookup : list OutRow :=
  get_ok (lookup default_pf "retail" retail_df no_hooks).1
    (eq_refl true <: is_ok (lookup default_pf "retail" retail_df no_hooks).1 = true).

(** ** Rounding

    The lines of the source where an identity of exact arithmetic is at
    stake, on IEEE doubles: every operation is rounded as numpy rounds
    it. *)

Module Binary64.
Import PrimFloat.









End Binary64.

(** * Properties *)

Lemma get_ok_eq {A} (r : result A) (H : is_ok r = true) : r = Ok (get_ok r H).
Proof. by destruct r. Qed.

Lemma from_defaults_eq : from_defaults = Ok default_pf.
Proof. apply get_ok_eq. Qed.

(** ** The reference scenario *)

(** C1.  With the default Parameter Set and the three-site table of the
    feasibility test, [lookup("residential", df)] returns exactly one row,
    and that row has far 1.8, 1800 square feet, a building cost per square
    foot between 100 and 400, a total cost equal to building cost plus
    land cost plus financing cost, a revenue per square foot between 200
    and 800, a residential area equal to the building area times the
    building efficiency, a story count strictly between the far and three
    times the far, no non-residential area and a positive profit. *)
Theorem reasonable_feasibility_results :
  ∃ first : OutRow,
    (pf ← from_defaults; (lookup pf "residential" test_df no_hooks).1) = Ok [first]
    ∧ let v name := get_val name first in
      (v "max_profit_far" ==? #1.8) = true
      ∧ (v "building_sqft" ==? #1800) = true
      ∧ (#100 <? v "building_cost" / v "building_sqft") = true
      ∧ (v "building_cost" / v "building_sqft" <? #400) = true
      ∧ (v "total_cost" ==? v "building_cost" + #100000 + v "financing_cost") = true
      ∧ (#200 <? v "building_revenue" / v "building_sqft") = true
      ∧ (v "building_revenue" / v "building_sqft" <? #800) = true
      ∧ (v "residential_sqft"
           ==? v "building_sqft" * Config.building_efficiency get_defaults) = true
      ∧ (v "max_profit_far" <? v "stories") = true
      ∧ (v "stories" <? v "max_profit_far" * #3) = true
      ∧ (v "non_residential_sqft" ==? #0) = true
      ∧ (v "max_profit" >? #0) = true.
Proof.
  eexists. split; [vm_compute; reflexivity|].
  vm_compute. repeat split.
Qed.

(** ** Validation of the Parameter Set *)

(** C2.  [check_is_reasonable] does not validate the parking costs: its
    second loop over the parking dictionaries runs over the stall areas
    once more and holds them to the range of the costs.  A parking cost of
    5 per square foot, outside [10, 300], passes the validation and the
    whole construction; a stall area of 500 square feet, inside
    [50, 1000] with every other listed range holding as well, fails it. *)
Theorem check_is_reasonable_skips_parking_cost :
  Config.parking_cost_d cheap_surface_parking !! "surface" = Some #5
  ∧ listed_ranges_hold cheap_surface_parking = false
  ∧ check_is_reasonable cheap_surface_parking = Ok tt
  ∧ is_ok (__init__ cheap_surface_parking) = true
  ∧ listed_ranges_hold wide_surface_stalls = true
  ∧ check_is_reasonable wide_surface_stalls = Raise AssertionError
  ∧ __init__ wide_surface_stalls = Raise AssertionError.
Proof. vm_compute. repeat split. Qed.

(** ** The caller's site table *)

(** Without [simple_zoning] a lookup leaves the caller's table as it
    was: [_lookup_parking_cfg] works on a copy. *)
Lemma lookup_leaves_table (self : SqFtProForma) form df hooks :
  simple_zoning self = false → (lookup self form df hooks).2 = df.
Proof. intros Hz. unfold lookup. by rewrite Hz. Qed.

(** C3.  With [simple_zoning] set, a lookup overwrites columns of the
    caller's table: after [lookup("residential", df)] on the test table
    its [max_far] and [max_height] columns are all NaN. *)
Theorem lookup_simple_zoning_overwrites_table :
  ∃ pf : SqFtProForma,
    __init__ simple_zoning_settings = Ok pf
    ∧ columns test_df !! "max_far" = Some [ #2.0; #2.0; #2.0]
    ∧ columns test_df !! "max_height" = Some [ #80; #80; #80]
    ∧ columns (lookup pf "residential" test_df no_hooks).2 !! "max_far"
        = Some [NaN; NaN; NaN]
    ∧ columns (lookup pf "residential" test_df no_hooks).2 !! "max_height"
        = Some [NaN; NaN; NaN]
    ∧ (lookup pf "residential" test_df no_hooks).2 ≠ test_df.
Proof.
  exists simple_zoning_pf. split; [apply get_ok_eq|].
  repeat split; try (vm_compute; reflexivity).
  intros H. apply (f_equal (λ d, columns d !! "max_far")) in H.
  vm_compute in H. discriminate.
Qed.

(** ** Facts about the monad and the numbers *)

Lemma bind_Ok {A B} (m : result A) (f : A → result B) (y : B) :
  m ≫= f = Ok y ↔ ∃ x, m = Ok x ∧ f x = Ok y.
Proof.
  destruct m as [x|e]; simpl; split.
  - intros H. by exists x.
  - by intros (x' & [= ->] & H).
  - discriminate.
  - by intros (x' & [=] & _).
Qed.

Lemma assert_Ok (c : bool) (u : unit) : assert c = Ok u ↔ c = true.
Proof. destruct c, u; simpl; split; (done || discriminate). Qed.

Lemma or_raise_Ok {A} (e : exn) (o : option A) (x : A) :
  or_raise e o = Ok x ↔ o = Some x.
Proof. destruct o; simpl; split; congruence. Qed.

(** Take apart a hypothesis that a chain of binds returned. *)
Ltac inv_bind H :=
  repeat match type of H with
  | _ ≫= _ = Ok _ =>
      let x := fresh "x" in let Hx := fresh "Hx" in
      apply bind_Ok in H as (x & Hx & H)
  | assert _ = Ok _ => apply assert_Ok in H
  | or_raise _ _ = Ok _ => apply or_raise_Ok in H
  | Ok _ = Ok _ => injection H as H
  end.

Lemma map_result_Forall2 {A B} (f : A → result B) (l : list A) (l' : list B) :
  map_result f l = Ok l' ↔ Forall2 (λ x y, f x = Ok y) l l'.
Proof.
  revert l'. induction l as [|x l IH]; intros l'; simpl.
  - split; [intros [= <-]; constructor | by inversion 1].
  - split.
    + intros H. apply bind_Ok in H as (y & Hy & H).
      apply bind_Ok in H as (ys & Hys & [= <-]).
      constructor; [done | by apply IH].
    + inversion 1 as [|? y ? ys Hy Hys]; subst.
      rewrite Hy. simpl. apply IH in Hys. by rewrite Hys.
Qed.

Lemma map_result_length {A B} (f : A → result B) l l' :
  map_result f l = Ok l' → length l' = length l.
Proof. intros H%map_result_Forall2. symmetry. by eapply Forall2_length. Qed.

Lemma map_result_lookup {A B} (f : A → result B) l l' i y :
  map_result f l = Ok l' → l' !! i = Some y → ∃ x, l !! i = Some x ∧ f x = Ok y.
Proof.
  intros H%map_result_Forall2 Hy.
  destruct (Forall2_lookup_r _ _ _ _ _ H Hy) as (x & ? & ?). eauto.
Qed.

Lemma map_result_elem_of {A B} (f : A → result B) l l' y :
  map_result f l = Ok l' → y ∈ l' → ∃ x, x ∈ l ∧ f x = Ok y.
Proof.
  intros H [i Hi]%list_elem_of_lookup.
  destruct (map_result_lookup _ _ _ _ _ H Hi) as (x & Hx & ?).
  exists x. split; [by eapply list_elem_of_lookup_2 | done].
Qed.

Lemma map_result_total {A B} (f : A → result B) (g : A → B) l :
  (∀ x, x ∈ l → f x = Ok (g x)) → map_result f l = Ok (g <$> l).
Proof.
  intros H. apply map_result_Forall2. apply Forall2_fmap_r, Forall_Forall2_diag.
  by apply Forall_forall.
Qed.

Lemma for_each_Ok {A} (body : A → result unit) (l : list A) :
  for_each body l = Ok tt ↔ Forall (λ x, body x = Ok tt) l.
Proof.
  induction l as [|x l IH]; simpl; [by split; [constructor|]|].
  rewrite bind_Ok, Forall_cons, <-IH. split.
  - by intros ([] & ? & ?).
  - intros [? ?]. by exists tt.
Qed.

Section num_order.
Local Open Scope Qc_scope.

Lemma ltb_Fin (a b : Qc) : (Fin a <? Fin b)%num = true ↔ a < b.
Proof. simpl. apply bool_decide_eq_true. Qed.

Lemma leb_Fin (a b : Qc) : (Fin a <=? Fin b)%num = true ↔ a ≤ b.
Proof. simpl. apply bool_decide_eq_true. Qed.

Lemma leb_refl (x : num) : isnan x = false → (x <=? x)%num = true.
Proof. destruct x; simpl; try done. intros _. by apply bool_decide_eq_true. Qed.

Lemma leb_trans (x y z : num) :
  (x <=? y)%num = true → (y <=? z)%num = true → (x <=? z)%num = true.
Proof.
  destruct x, y, z; simpl; try done.
  rewrite !bool_decide_eq_true. apply Qcle_trans.
Qed.

Lemma ltb_leb (x y : num) : (x <? y)%num = true → (x <=? y)%num = true.
Proof.
  destruct x, y; simpl; try done.
  rewrite !bool_decide_eq_true. apply Qclt_le_weak.
Qed.

Lemma ltb_leb_trans (x y z : num) :
  (x <? y)%num = true → (y <=? z)%num = true → (x <? z)%num = true.
Proof.
  destruct x, y, z; simpl; try done.
  rewrite !bool_decide_eq_true. apply Qclt_le_trans.
Qed.

(** Of two numbers that are not NaN, one is at most the other or strictly
    above it. *)
Lemma leb_false_ltb (x y : num) :
  isnan x = false → isnan y = false →
  (x <=? y)%num = false → (y <? x)%num = true.
Proof.
  destruct x, y; simpl; try done.
  intros _ _. rewrite bool_decide_eq_false, bool_decide_eq_true.
  apply Qclt_nge.
Qed.

Lemma ltb_irrefl (x : num) : (x <? x)%num = false.
Proof.
  destruct x; simpl; try done.
  apply bool_decide_eq_false. intros H. by apply Qclt_not_eq in H.
Qed.

Lemma sign_Fin_Lt (q : Qc) : sign (Fin q) = Lt ↔ q < 0.
Proof. simpl. symmetry. apply Qclt_alt. Qed.

Lemma sign_Fin_Gt (q : Qc) : sign (Fin q) = Gt ↔ 0 < q.
Proof. simpl. symmetry. apply Qcgt_alt. Qed.

Lemma Qcdiv_pos_pos (b d : Qc) : 0 < b → 0 < d → 0 < b / d.
Proof.
  intros Hb Hd. unfold Qcdiv.
  apply Qcmult_pos_pos; [done | by apply Qcinv_pos].
Qed.

Lemma Qcdiv_pos_neg (b d : Qc) : 0 < b → d < 0 → b / d < 0.
Proof.
  intros Hb Hd.
  assert (Hne : d ≠ 0) by (by apply Qclt_not_eq).
  apply Qclt_minus_iff in Hd. apply Qclt_minus_iff.
  replace (0 + - (b / d)) with (b / (0 + - d)).
  2:{ field. split; [done|]. intros H. apply Hne.
      rewrite <-(Qcopp_involutive d), H. ring. }
  by apply Qcdiv_pos_pos.
Qed.

End num_order.

(** ** Stories under surface parking *)

Lemma surface_stories_spec (p sq b s : num) :
  (#0 <? b) = true → isinf (p - s * sq) = false →
  surface_stories p sq b s =
    if ((p - s * sq) <? #0) || (b / (p - s * sq) >? #5) then NaN
    else b / (p - s * sq).
Proof.
  unfold surface_stories. generalize (p - s * sq). intros d Hb Hd.
  destruct b as [| | |b]; try done; destruct d as [| | |d]; try done.
  - (* infinite bulk over a finite footprint *)
    unfold div. simpl. destruct (decide (d = 0%Qc)) as [->|Hne].
    + by rewrite bool_decide_true by done.
    + rewrite bool_decide_false by done.
      destruct (d ?= 0)%Qc eqn:Hs; simpl.
      * by apply Qceq_alt in Hs.
      * apply Qclt_alt in Hs. by rewrite (bool_decide_true _ Hs).
      * apply Qcgt_alt in Hs.
        rewrite bool_decide_false; [done|]. by apply Qcle_not_lt, Qclt_le_weak.
  - (* finite bulk over a finite footprint *)
    apply ltb_Fin in Hb.
    unfold div. destruct (decide (d = 0%Qc)) as [->|Hne].
    + rewrite bool_decide_true by done.
      apply sign_Fin_Gt in Hb. by rewrite Hb.
    + rewrite bool_decide_false by done.
      destruct (Qclt_le_dec d 0) as [Hd0|Hd0].
      * pose proof (Qcdiv_pos_neg _ _ Hb Hd0) as Hq.
        apply ltb_Fin in Hq, Hd0. unfold of_Q. rewrite Hq, Hd0. done.
      * assert (0 < d)%Qc as Hpos.
        { apply Qcle_lt_or_eq in Hd0 as [?|?]; [done | by subst]. }
        pose proof (Qcdiv_pos_pos _ _ Hb Hpos) as Hq.
        assert ((Fin (b / d) <? #0) = false) as ->.
        { apply bool_decide_eq_false, Qcle_not_lt, Qclt_le_weak, Hq. }
        assert ((Fin d <? #0) = false) as ->.
        { by apply bool_decide_eq_false, Qcle_not_lt. }
        simpl. by destruct (bool_decide _).
Qed.

(** C5.  Under surface parking the stories of an entry are the building
    bulk over the footprint left by the stalls (parcel size minus stalls
    times the area of a surface stall).  An entry whose footprint is
    negative or whose story count on that footprint exceeds 5 is NaN; the
    other entries are divided by the parcel coverage afterwards.  The bulk
    of the entry is taken to be positive and the footprint not
    infinite. *)
Theorem stories_surface (self : Attrs) (building_bulk parking_stalls : list num)
    (p sq b s : num) (i : nat) :
  tiled_parcel_size self = Ok p →
  sqft_of self "surface" = Ok sq →
  building_bulk !! i = Some b →
  parking_stalls !! i = Some s →
  (#0 <? b) = true →
  isinf (p - s * sq) = false →
  ∃ stories,
    _stories self "surface" building_bulk parking_stalls = Ok stories
    ∧ stories !! i = Some
        (if ((p - s * sq) <? #0) || (b / (p - s * sq) >? #5) then NaN
         else b / (p - s * sq) / parcel_coverage self).
Proof.
  intros Hp Hsq Hb Hs Hpos Hfin. unfold _stories.
  rewrite Hp. simpl. rewrite Hsq. simpl. eexists. split; [done|].
  rewrite list_lookup_fmap, lookup_zip_with, Hb. simpl. rewrite Hs. simpl.
  rewrite surface_stories_spec by done.
  by destruct (_ || _).
Qed.

Lemma stories_surface_witness :
  ∃ stories,
    _stories default_pf "surface" [ #18000; #20000; #22500] [ #18; #20; #22.5]
      = Ok stories
    ∧ stories !! 2%nat = Some NaN.
Proof.
  destruct (stories_surface default_pf [ #18000; #20000; #22500]
              [ #18; #20; #22.5] #10000.0 #300.0 #22500 #22.5 2)
    as (stories & Hs & Hi).
  1-6: vm_compute; reflexivity.
  exists stories. split; [exact Hs|]. rewrite Hi. vm_compute. reflexivity.
Defined.

(** ** The selection of the most profitable far *)


Lemma leb_isnan_l (x y : num) : (x <=? y) = true → isnan x = false.
Proof. by destruct x. Qed.








(** ** The density cap *)

Lemma no_assert_Ok {A} (x : A) : no_assert (Ok x).
Proof. done. Qed.

Lemma no_assert_Raise {A} (e : exn) : e ≠ AssertionError → no_assert (A := A) (Raise e).
Proof. intros He [= ?]. done. Qed.

Lemma no_assert_or_raise {A} (e : exn) (o : option A) :
  e ≠ AssertionError → no_assert (or_raise e o).
Proof. intros He. destruct o; [done | by apply no_assert_Raise]. Qed.

Lemma no_assert_bind {A B} (m : result A) (f : A → result B) :
  no_assert m → (∀ x, m = Ok x → no_assert (f x)) → no_assert (m ≫= f).
Proof.
  intros Hm Hf. destruct m as [x|e]; simpl; [by apply Hf|].
  intros [= ->]. by apply Hm.
Qed.

Lemma no_assert_map_result {A B} (f : A → result B) (l : list A) :
  (∀ x, no_assert (f x)) → no_assert (map_result f l).
Proof.
  intros Hf. induction l as [|x l IH]; simpl; [done|].
  apply no_assert_bind; [done|]. intros y _.
  apply no_assert_bind; [done|]. done.
Qed.

(** One step through a computation that raises no assertion failure. *)
Ltac no_assert_step :=
  lazymatch goal with
  | |- no_assert (Ok _) => apply no_assert_Ok
  | |- no_assert (Raise _) => by apply no_assert_Raise
  | |- no_assert (or_raise _ _) => by apply no_assert_or_raise
  | |- no_assert (col _ _) => by apply no_assert_or_raise
  | |- no_assert (attr _ _) => by apply no_assert_or_raise
  | |- no_assert (map_result _ _) => apply no_assert_map_result; intros ?
  | |- no_assert (_ ≫= _) => apply no_assert_bind; [|intros ? ?]
  | |- no_assert (if ?c then _ else _) => destruct c eqn:?
  | |- no_assert (match ?x with _ => _ end) => destruct x eqn:?
  | |- no_assert (let _ := _ in _) => cbv zeta
  end.

Lemma no_assert_twod_get (indexes : list nat) (arr : matrix) :
  no_assert (twod_get indexes arr).
Proof. unfold twod_get. repeat no_assert_step. Qed.

Lemma no_assert_np_argmax (l : list num) : no_assert (np_argmax l).
Proof. unfold np_argmax. by destruct l. Qed.

Lemma no_assert_min_axis1 (df : DataFrame) (names : list string) :
  no_assert (min_axis1 df names).
Proof. unfold min_axis1. repeat no_assert_step. Qed.

Lemma no_assert_max_profit_parking (df : list OutRow) :
  no_assert (_max_profit_parking df).
Proof.
  unfold _max_profit_parking, idxmax, np_argmax. repeat no_assert_step.
Qed.

Lemma min_max_fars_no_assert (self : SqFtProForma) (df : DataFrame) (resratio : num) :
  is_Some (columns df !! "ave_unit_size") ∨ (resratio >? #0) = false →
  no_assert (_min_max_fars self df resratio).
Proof.
  intros Have. unfold _min_max_fars.
  destruct (bool_decide _ && (resratio >? #0)) eqn:Hc.
  - apply andb_true_iff in Hc as [_ Hpos].
    destruct Have as [Have | Hneg]; [|congruence].
    rewrite (bool_decide_true _ Have). simpl.
    repeat first [apply no_assert_min_axis1 | no_assert_step].
  - repeat first [apply no_assert_min_axis1 | no_assert_step].
Qed.

Lemma min_max_fars_assert (self : SqFtProForma) (df : DataFrame) (resratio : num) :
  is_Some (columns df !! "max_dua") →
  columns df !! "ave_unit_size" = None →
  (resratio >? #0) = true →
  _min_max_fars self df resratio = Raise AssertionError.
Proof.
  intros Hdua Have Hpos. unfold _min_max_fars.
  rewrite (bool_decide_true _ Hdua), Hpos. simpl.
  rewrite bool_decide_false; [done|]. rewrite Have. by intros [? ?].
Qed.

Lemma attr_set_col_ne (df : DataFrame) (name name' : string) (v : list num) :
  name ≠ name' → attr (set_col df name v) name' = attr df name'.
Proof. intros. unfold attr, set_col. simpl. by rewrite lookup_insert_ne. Qed.

Lemma simple_zoning_keeps (form : string) (df : DataFrame) (name : string) :
  name ≠ "max_far" → name ≠ "max_height" → name ≠ "max_dua" →
  columns (_simple_zoning form df) !! name = columns df !! name.
Proof.
  intros. unfold _simple_zoning, set_col_nan, set_col.
  destruct (bool_decide _); simpl; by rewrite !lookup_insert_ne.
Qed.

Lemma simple_zoning_is_Some (form : string) (df : DataFrame) (name : string) :
  is_Some (columns df !! name) → is_Some (columns (_simple_zoning form df) !! name).
Proof.
  intros. unfold _simple_zoning, set_col_nan, set_col.
  destruct (bool_decide _); simpl; rewrite !lookup_insert;
    repeat case_decide; by eauto.
Qed.

Lemma lookup_parking_cfg_no_assert (self : SqFtProForma) form cfg (df : DataFrame) :
  (is_Some (columns df !! "ave_unit_size")
   ∨ ∀ r, res_ratios self !! form = Some r → (r >? #0) = false) →
  no_assert (_lookup_parking_cfg self form cfg df no_hooks).
Proof.
  intros Have. unfold _lookup_parking_cfg, apply_hook, matrix_sub. simpl.
  repeat first
    [ apply no_assert_twod_get
    | apply no_assert_np_argmax
    | apply min_max_fars_no_assert
    | by apply no_assert_or_raise
    | apply no_assert_map_result; intros ?
    | lazymatch goal with
      | |- no_assert (_ ≫= _) => apply no_assert_bind; [|intros ? ?]
      | |- no_assert (Ok _) => apply no_assert_Ok
      | |- no_assert (Raise _) => by apply no_assert_Raise
      | |- no_assert (if ?c then _ else _) => destruct c eqn:?
      | |- no_assert (match ?x with _ => _ end) => destruct x eqn:?
      end ].
  destruct Have as [Have | Hr].
  - left. simpl. by rewrite !lookup_insert_ne.
  - right. apply Hr. by eapply or_raise_Ok.
Qed.

(** C7 as stated fails for a form without residential space: on the test
    table with a density cap and no average unit size,
    [lookup("office", df)] returns (an empty table). *)
Lemma lookup_office_max_dua_returns :
  is_Some (columns test_df_max_dua !! "max_dua")
  ∧ columns test_df_max_dua !! "ave_unit_size" = None
  ∧ (lookup default_pf "office" test_df_max_dua no_hooks).1 = Ok [].
Proof. repeat split; try (vm_compute; reflexivity). by eexists. Qed.

(** C7, amended.  For a form with a positive residential fraction, a lookup
    on a site table that has a [max_dua] column and no [ave_unit_size]
    column fails on the assertion of [_min_max_fars] (the table having the
    rent columns and [max_height], and no [modify_df] hook being given).
    With an [ave_unit_size] column, or for a form whose residential
    fraction is not positive, a lookup without hooks does not fail on an
    assertion. *)
Theorem lookup_max_dua_needs_ave_unit_size (self : SqFtProForma)
    (form : string) (df : DataFrame) :
  (∀ hooks cfg cfgs resratio,
     modify_df hooks = None →
     parking_configs self = cfg :: cfgs →
     is_Some (reference_dict self !! (form, cfg)) →
     res_ratios self !! form = Some resratio →
     is_Some (forms self !! form) →
     (∀ use, use ∈ uses self → is_Some (columns df !! use)) →
     is_Some (columns df !! "max_height") →
     is_Some (columns df !! "max_dua") →
     columns df !! "ave_unit_size" = None →
     (resratio >? #0) = true →
     (lookup self form df hooks).1 = Raise AssertionError)
  ∧ ((is_Some (columns df !! "ave_unit_size")
      ∨ ∀ r, res_ratios self !! form = Some r → (r >? #0) = false) →
     (lookup self form df no_hooks).1 ≠ Raise AssertionError).
Proof.
  split.
  - intros hooks cfg cfgs resratio Hhook Hcfgs [dev_info Href] Hres [mix Hmix]
      Huses Hheight Hdua Have Hpos.
    unfold lookup. simpl. rewrite Hcfgs. simpl.
    set (df' := if simple_zoning self then _ else _).
    assert (Huses' : ∀ use, use ∈ uses self → is_Some (columns df' !! use)).
    { intros use Huse. subst df'. destruct (simple_zoning self); [|by auto].
      by apply simple_zoning_is_Some, Huses. }
    assert (Hheight' : is_Some (columns df' !! "max_height")).
    { subst df'. destruct (simple_zoning self); [|done].
      by apply simple_zoning_is_Some. }
    assert (Hdua' : is_Some (columns df' !! "max_dua")).
    { subst df'. destruct (simple_zoning self); [|done].
      by apply simple_zoning_is_Some. }
    assert (Have' : columns df' !! "ave_unit_size" = None).
    { subst df'. destruct (simple_zoning self); [|done].
      by rewrite simple_zoning_keeps. }
    clearbody df'.
    assert (_lookup_parking_cfg self form cfg df' hooks = Raise AssertionError)
      as ->; [|done].
    unfold _lookup_parking_cfg. rewrite Href, Hres.
    cbn [mbind result_bind or_raise].
    rewrite (map_result_total _ (λ use, default [] (columns df' !! use))).
    2:{ intros use Huse. destruct (Huses' use Huse) as [c Hc].
        unfold col. by rewrite Hc. }
    rewrite Hmix, Hhook. cbn [mbind result_bind or_raise].
    destruct Hheight' as [h Hh].
    assert (Hattr : attr df' "max_height" = Ok h) by (unfold attr; by rewrite Hh).
    rewrite attr_set_col_ne by done. rewrite Hattr.
    cbn [mbind result_bind or_raise].
    rewrite min_max_fars_assert; [done| | |done].
    + unfold set_col. cbn [columns]. by rewrite !lookup_insert_ne.
    + unfold set_col. cbn [columns]. by rewrite !lookup_insert_ne.
  - intros Have. unfold lookup. simpl.
    set (df' := if simple_zoning self then _ else _).
    assert (Have' :
      is_Some (columns df' !! "ave_unit_size")
      ∨ ∀ r, res_ratios self !! form = Some r → (r >? #0) = false).
    { destruct Have as [Have|Hr]; [left|by right].
      subst df'. destruct (simple_zoning self); [|done].
      by apply simple_zoning_is_Some. }
    clearbody df'. change (no_assert ?r) with (no_assert r).
    fold (no_assert (A := list OutRow)).
    repeat first
      [ apply no_assert_max_profit_parking
      | by apply lookup_parking_cfg_no_assert
      | by apply no_assert_or_raise
      | apply no_assert_map_result; intros ?
      | lazymatch goal with
        | |- (_ ≫= _) ≠ Raise AssertionError => apply no_assert_bind; [|intros ? ?]
        | |- no_assert (_ ≫= _) => apply no_assert_bind; [|intros ? ?]
        | |- no_assert (Ok _) => apply no_assert_Ok
        | |- no_assert (Raise _) => by apply no_assert_Raise
        | |- no_assert (to_yearly _ _) => unfold to_yearly
        | |- no_assert (if ?c then _ else _) => destruct c eqn:?
        | |- (match ?x with _ => _ end) ≠ Raise AssertionError => destruct x eqn:?
        | |- no_assert (match ?x with _ => _ end) => destruct x eqn:?
        | |- Raise _ ≠ Raise AssertionError => by apply no_assert_Raise
        | |- Ok _ ≠ Raise AssertionError => done
        end ].
Qed.

Lemma lookup_max_dua_needs_ave_unit_size_witness :
  (lookup default_pf "residential" test_df_max_dua no_hooks).1 = Raise AssertionError
  ∧ (lookup default_pf "mixedoffice"
       (set_col test_df_max_dua "ave_unit_size" [ #650; #650; #650]) no_hooks).1
    ≠ Raise AssertionError.
Proof.
  split.
  - eapply (proj1 (lookup_max_dua_needs_ave_unit_size default_pf "residential"
                     test_df_max_dua) no_hooks "surface" ["deck"; "underground"]).
    + reflexivity.
    + vm_compute. reflexivity.
    + apply (bool_decide_unpack _). vm_compute. exact I.
    + vm_compute. reflexivity.
    + apply (bool_decide_unpack _). vm_compute. exact I.
    + intros use Huse. vm_compute in Huse.
      repeat (apply elem_of_cons in Huse as [->|Huse]; [by eexists|]).
      by apply elem_of_nil in Huse.
    + by eexists.
    + by eexists.
    + reflexivity.
    + vm_compute. reflexivity.
  - apply (proj2 (lookup_max_dua_needs_ave_unit_size default_pf "mixedoffice" _)).
    left. by eexists.
Defined.


(** ** The rows of a lookup result *)

Lemma find_row_Some df lbl c r :
  find_row df lbl c = Some r → r ∈ df ∧ label r = lbl ∧ parking_config r = c.
Proof.
  unfold find_row. intros H.
  destruct (list_find _ df) as [[i r']|] eqn:Hf; simpl in H; [|done].
  injection H as <-. apply list_find_Some in Hf as (Hi & [? ?] & _).
  split; [by eapply list_elem_of_lookup_2 | done].
Qed.

Lemma max_profit_parking_elem_of df out r :
  _max_profit_parking df = Ok out → r ∈ out → r ∈ df.
Proof.
  unfold _max_profit_parking. intros H Hr. inv_bind H.
  destruct (map_result_elem_of _ _ _ _ H Hr) as (lbl & _ & Hl).
  inv_bind Hl. by apply find_row_Some in Hl as [? _].
Qed.





Lemma elem_of_concat {A} (x : A) (ls : list (list A)) :
  x ∈ concat ls ↔ ∃ l, x ∈ l ∧ l ∈ ls.
Proof.
  induction ls as [|l ls IH]; simpl.
  - split; [by intros ?%elem_of_nil | by intros (l & _ & ?%elem_of_nil)].
  - rewrite elem_of_app, IH. split.
    + intros [Hx | (l' & Hx & Hl')]; [exists l | exists l'];
        (split; [done|]); [by left | by right].
    + intros (l' & Hx & [-> | Hl']%elem_of_cons); [by left | right; eauto].
Qed.

Lemma lookup_selected (self : SqFtProForma) form df hooks out :
  (lookup self form df hooks).1 = Ok out →
  out = []
  ∨ ∃ frames selected,
      map_result (λ cfg, _lookup_parking_cfg self form cfg
                           (working_table self form df) hooks)
                 (parking_configs self) = Ok frames
      ∧ _max_profit_parking (concat frames) = Ok selected
      ∧ Forall2 (λ r1 r, r = r1 ∨ ∃ x, r = set_val "residential" x r1) selected out.
Proof.
  unfold lookup, working_table. cbn [fst].
  destruct (parking_configs self) as [|cfg cfgs] eqn:Hcfgs; [done|].
  intros H. inv_bind H. destruct (bool_decide (concat x = [])); [left; congruence|].
  inv_bind H. right. exists x, x0. split; [done|]. split; [done|].
  destruct (_ && _).
  - apply map_result_Forall2 in H. eapply Forall2_impl; [done|].
    intros r1 r Hr. unfold to_yearly in Hr. inv_bind Hr. right. eauto.
  - injection H as <-. apply Forall_Forall2_diag, Forall_forall. auto.
Qed.

Lemma lookup_rows (self : SqFtProForma) form df hooks out r :
  (lookup self form df hooks).1 = Ok out → r ∈ out →
  ∃ cfg frame r1,
    cfg ∈ parking_configs self
    ∧ _lookup_parking_cfg self form cfg (working_table self form df) hooks = Ok frame
    ∧ r1 ∈ frame
    ∧ (r = r1 ∨ ∃ x, r = set_val "residential" x r1).
Proof.
  intros H Hr. apply lookup_selected in H as [-> | (frames & sel & Hf & Hs & Hout)].
  { by apply elem_of_nil in Hr. }
  apply list_elem_of_lookup in Hr as [i Hi].
  destruct (Forall2_lookup_r _ _ _ _ _ Hout Hi) as (r1 & Hr1 & Hrel).
  apply list_elem_of_lookup_2 in Hr1.
  apply (max_profit_parking_elem_of _ _ _ Hs) in Hr1.
  apply elem_of_concat in Hr1 as (frame & Hr1 & Hframe).
  destruct (map_result_elem_of _ _ _ _ Hf Hframe) as (cfg & Hcfg & Hc).
  eauto 10.
Qed.





(** ** The parking-configuration selector *)







Lemma label_set_val name v r : label (set_val name v r) = label r.
Proof. unfold set_val. by destruct (bool_decide _). Qed.

Lemma parking_config_set_val name v r :
  name ≠ "parking_config" → parking_config (set_val name v r) = parking_config r.
Proof. intros. unfold set_val. by rewrite bool_decide_false. Qed.

Lemma get_val_set_val_other name name' v r :
  name ≠ name' → get_val name' (set_val name v r) = get_val name' r.
Proof.
  intros Hne. unfold get_val, set_val. destruct (bool_decide _); [done|].
  simpl. by rewrite lookup_insert_ne.
Qed.

Lemma set_pass_through_spec names cols j r :
  label (set_pass_through names cols j r) = label r
  ∧ ("parking_config" ∉ names →
     parking_config (set_pass_through names cols j r) = parking_config r)
  ∧ ∀ k, k ∉ names →
      get_val k (set_pass_through names cols j r) = get_val k r.
Proof.
  unfold set_pass_through. revert cols r.
  induction names as [|n names IH]; intros cols r; [done|].
  destruct cols as [|c cols]; [done|]. simpl.
  destruct (IH cols (set_val n (default NaN (c !! j)) r)) as (Hl & Hp & Hv).
  split; [by rewrite Hl, label_set_val|]. split.
  - intros Hn. apply not_elem_of_cons in Hn as [Hne Hn].
    rewrite Hp by done. by apply parking_config_set_val.
  - intros k Hk. apply not_elem_of_cons in Hk as [Hne Hk].
    rewrite Hv by done. by apply get_val_set_val_other.
Qed.

Lemma set_sqft_split_spec (self : SqFtProForma) ρ ρ' r :
  label (set_sqft_split self ρ ρ' r) = label r
  ∧ parking_config (set_sqft_split self ρ ρ' r) = parking_config r
  ∧ ∀ k, k ≠ "residential_sqft" → k ≠ "non_residential_sqft" →
      get_val k (set_sqft_split self ρ ρ' r) = get_val k r.
Proof.
  unfold set_sqft_split. split; [by rewrite !label_set_val|]. split.
  - by rewrite !parking_config_set_val.
  - intros k H1 H2. by rewrite !get_val_set_val_other.
Qed.


Lemma twod_get_length indexes (arr : matrix) out :
  twod_get indexes arr = Ok out → length indexes = length arr →
  length out = length indexes.
Proof.
  unfold twod_get. intros H%map_result_length Hlen.
  rewrite H, length_zip_with. lia.
Qed.


Lemma min_max_fars_index (self : SqFtProForma) df ρ m df' :
  _min_max_fars self df ρ = Ok (m, df') → index df' = index df.
Proof.
  unfold _min_max_fars. intros H. destruct (_ && _); inv_bind H; by simplify_eq.
Qed.

Lemma out_row_max_profit (self : SqFtProForma) cfg lbl a b c d e f g h i j :
  get_val "max_profit" (out_row self cfg lbl a b c d e f g h i j) = h.
Proof. reflexivity. Qed.


Lemma working_table_index (self : SqFtProForma) form df :
  index (working_table self form df) = index df.
Proof.
  unfold working_table, _simple_zoning. destruct (simple_zoning self); [|done].
  by destruct (bool_decide _).
Qed.




(** ** The cost per area of a reference entry *)

Lemma searchsorted_spec (a : list num) (v : num) :
  isnan v = false →
  (∀ j b, (j < searchsorted a v)%nat → a !! j = Some b → (b <? v) = true)
  ∧ (∀ b, a !! searchsorted a v = Some b → (b <? v) = false).
Proof.
  intros Hv. induction a as [|x a [IH1 IH2]]; simpl.
  - split; [intros; lia | done].
  - unfold np_less. rewrite Hv. rewrite andb_false_l, orb_false_r.
    destruct (x <? v) eqn:Hx.
    + split.
      * intros [|j] b Hj Hb; simpl in Hb; [congruence|].
        apply (IH1 j b); [lia | done].
      * intros b Hb. simpl in Hb. by apply IH2.
    + split; [intros; lia|]. intros b [= <-]. done.
Qed.

Lemma reference_rows_lookup (self : Attrs) name p fs bulk stalls psq pcost
    stories bcost months i r :
  reference_rows self name p fs bulk stalls psq pcost stories bcost months !! i
    = Some r →
  ∃ f b s q c st bc m,
    fs !! i = Some f ∧ bulk !! i = Some b ∧ stalls !! i = Some s
    ∧ psq !! i = Some q ∧ pcost !! i = Some c ∧ stories !! i = Some st
    ∧ bcost !! i = Some bc ∧ months !! i = Some m
    ∧ r = reference_row self name p f b s q c st bc m.
Proof.
  revert fs bulk stalls psq pcost stories bcost months.
  induction i as [|i IH];
    intros [|f fs] [|b bulk] [|s stalls] [|q psq] [|c pcost] [|st stories]
           [|bc bcost] [|m months] H; simpl in H; try done.
  - injection H as <-. eauto 20.
  - by apply IH.
Qed.

Lemma building_cost_lookup (self : Attrs) use_mix stories bcost i bc :
  _building_cost self use_mix stories = Ok bcost → bcost !! i = Some bc →
  ∃ s row,
    stories !! i = Some s
    ∧ costs self !!
        (if isnan (s * height_per_story self) then 0%nat
         else searchsorted (heights_for_costs self) (s * height_per_story self))
      = Some row
    ∧ bc = if isnan s then NaN else np_dot row use_mix.
Proof.
  unfold _building_cost. intros H Hbc. inv_bind H. subst bcost.
  apply lookup_zip_with_Some in Hbc as (s & c & -> & Hs & Hc).
  rewrite list_lookup_fmap in Hc.
  destruct (x !! i) as [row|] eqn:Hrow; [|done]. injection Hc as <-.
  destruct (map_result_lookup _ _ _ _ _ Hx Hrow) as (k & Hk & Hcost).
  rewrite !list_lookup_fmap, Hs in Hk. injection Hk as <-.
  apply or_raise_Ok in Hcost. eauto.
Qed.

(** C4, amended.  In a reference table the cost per area of an entry is
    the use-mix-weighted dot product of the cost vector of a bracket, and
    NaN when the stories of the entry are NaN.  The bracket is found by the
    stories as [_stories] returns them, before the ceiling of the
    [stories] column is taken, times the height per story: it is the first
    whose breakpoint is not below that height. *)
Theorem building_cost_bracket (self : Attrs) (name : string) (use_mix : list num)
    (cfg : string) (t : list RefRow) (i : nat) (r : RefRow) :
  _reference_dataframe self name use_mix cfg = Ok t →
  t !! i = Some r →
  ∃ building_bulk stories s,
    _building_bulk self use_mix cfg = Ok building_bulk
    ∧ _stories self cfg building_bulk
        ((λ b, b * weighted_parking_rate self use_mix / sqft_per_rate self)
           <$> building_bulk) = Ok stories
    ∧ stories !! i = Some s
    ∧ ref_stories r = ceil s
    ∧ height r = ceil s * height_per_story self
    ∧ (isnan s = true → build_cost_sqft r = NaN)
    ∧ (isnan s = false →
       let h := s * height_per_story self in
       ∃ k row,
         costs self !! k = Some row
         ∧ build_cost_sqft r = np_dot row use_mix
         ∧ (isnan h = true → k = 0%nat)
         ∧ (isnan h = false →
            (∀ j b, (j < k)%nat → heights_for_costs self !! j = Some b →
                    (b <? h) = true)
            ∧ (∀ b, heights_for_costs self !! k = Some b → (b <? h) = false))).
Proof.
  unfold _reference_dataframe. intros H Hr. inv_bind H. subst t.
  apply reference_rows_lookup in Hr
    as (f & b & s & q & c & st & bc & m & _ & _ & _ & _ & _ & Hst & Hbc & _ & ->).
  destruct (building_cost_lookup _ _ _ _ _ _ Hx4 Hbc) as (st' & row & Hst' & Hrow & ->).
  assert (st' = st) as -> by congruence.
  exists x, x0, st. repeat (split; [done|]). simpl. split.
  - by intros ->.
  - intros Hnan. rewrite Hnan. eexists _, row. split; [done|]. split; [done|].
    destruct (isnan (st * height_per_story self)) eqn:Hh.
    + split; [done | by intros].
    + split; [done|]. intros _. by apply searchsorted_spec.
Qed.

(** C4 as stated fails: with the bracket found by the height of the entry
    (the ceiling of the stories times the height per story) the default
    residential form under surface parking would cost 190 per square foot
    at far 0.75 (two stories, 24 feet); the table has 170, the cost of the
    bracket up to 15 feet. *)
Lemma cost_bracket_by_ceiling_fails :
  _reference_dataframe default_pf "residential" (default_mix "residential") "surface"
    = Ok (default_table "residential" "surface")
  ∧ ∃ r : RefRow,
      default_table "residential" "surface" !! 3%nat = Some r
      ∧ (far r ==? #0.75) = true
      ∧ (height r ==? #24) = true
      ∧ (build_cost_sqft r ==? #170) = true
      ∧ ∃ c, spec_cost_per_area default_pf (default_mix "residential") r = Ok c
             ∧ (c ==? #190) = true.
Proof.
  split; [vm_compute; reflexivity|].
  eexists. split; [vm_compute; reflexivity|].
  repeat split; try (vm_compute; reflexivity).
  eexists. split; vm_compute; reflexivity.
Qed.

Lemma building_cost_bracket_witness :
  ∃ (r : RefRow) (s : num),
    default_table "residential" "surface" !! 3%nat = Some r
    ∧ ref_stories r = ceil s
    ∧ (isnan s = false → ∃ k row,
         costs default_pf !! k = Some row
         ∧ build_cost_sqft r = np_dot row (default_mix "residential")).
Proof.
  eexists.
  edestruct (building_cost_bracket default_pf "residential"
               (default_mix "residential") "surface"
               (default_table "residential" "surface") 3)
    as (bulk & stories & s & _ & _ & _ & Hceil & _ & _ & Hcost).
  - vm_compute. reflexivity.
  - vm_compute. reflexivity.
  - exists s. split; [vm_compute; reflexivity|]. split; [exact Hceil|].
    intros Hs. destruct (Hcost Hs) as (k & row & Hk & Hbc & _). eauto.
Defined.


(** ** Dump and reload *)





























(** * Further properties *)

(** ** The rows of a lookup without hooks *)

Lemma select_lookup (mask : list bool) (j : nat) :
  ∃ oj : option nat,
    (∀ A (l : list A), select mask l !! j = oj ≫= (l !!.))
    ∧ (∀ j0, oj = Some j0 → mask !! j0 = Some true).
Proof.
  revert j. induction mask as [|b mask IH]; intros j.
  { exists None. split; [by intros A [|x l] | done]. }
  destruct b.
  - destruct j as [|k].
    + exists (Some 0). split; [by intros A [|x l] | by intros j0 [= <-]].
    + destruct (IH k) as (oj & Hsel & Hm). exists (S <$> oj). split.
      * intros A [|x l]; [by destruct oj|].
        specialize (Hsel A l). unfold select in *. cbn [zip_with].
        rewrite filter_cons_True by done. cbn [fmap list_fmap snd lookup list_lookup].
        etrans; [exact Hsel|]. by destruct oj.
      * intros j0 Hj0. destruct oj as [j1|]; [|done]. injection Hj0 as <-.
        simpl. by apply Hm.
  - destruct (IH j) as (oj & Hsel & Hm). exists (S <$> oj). split.
    + intros A [|x l]; [by destruct oj|].
      specialize (Hsel A l). unfold select in *. cbn [zip_with].
      rewrite filter_cons_False by (simpl; congruence).
      etrans; [exact Hsel|]. by destruct oj.
    + intros j0 Hj0. destruct oj as [j1|]; [|done]. injection Hj0 as <-.
      simpl. by apply Hm.
Qed.

Lemma twod_get_entry indexes (arr : matrix) out j v :
  twod_get indexes arr = Ok out → out !! j = Some v →
  ∃ i column, indexes !! j = Some i ∧ arr !! j = Some column ∧ column !! i = Some v.
Proof.
  unfold twod_get. intros H Hv.
  destruct (map_result_lookup _ _ _ _ _ H Hv) as ([i column] & Hz & Hc).
  apply lookup_zip_with_Some in Hz as (i' & c' & [= <- <-] & Hi & Hcol).
  apply or_raise_Ok in Hc. simpl in Hc. eauto.
Qed.

Lemma min_max_fars_columns (self : SqFtProForma) df ρ m df' name :
  _min_max_fars self df ρ = Ok (m, df') → name ≠ "max_far_from_dua" →
  columns df' !! name = columns df !! name.
Proof.
  unfold _min_max_fars. intros H Hne. destruct (_ && _); inv_bind H; simplify_eq; [|done].
  simpl. by rewrite lookup_insert_ne.
Qed.


Lemma twod_get_site {S} (sites : list S) (proj : S → list num) idx out j i s :
  twod_get idx (proj <$> sites) = Ok out → idx !! j = Some i →
  sites !! j = Some s → length idx = length sites →
  ∃ v, out !! j = Some v ∧ proj s !! i = Some v.
Proof.
  intros H Hi Hs Hlen.
  assert (Hlen' : length out = length idx).
  { apply (twod_get_length _ _ _ H). by rewrite length_fmap. }
  destruct (lookup_lt_is_Some_2 out j) as [v Hv].
  { rewrite Hlen'. by eapply lookup_lt_Some. }
  exists v. split; [done|].
  destruct (twod_get_entry _ _ _ _ _ H Hv) as (i' & column & Hi' & Hc & Hcv).
  unfold matrix in *. rewrite list_lookup_fmap, Hs in Hc. simpl in Hc. congruence.
Qed.

Ltac bind_as H x Hx := apply bind_Ok in H as (x & Hx & H).

Lemma lookup_parking_cfg_site (self : SqFtProForma) form cfg df out r :
  _lookup_parking_cfg self form cfg df no_hooks = Ok out → r ∈ out →
  ∃ dev_info ρ mix rents c_mh c_ps c_lc mmf0 df3 j0 lbl i,
    reference_dict self !! (form, cfg) = Some dev_info
    ∧ res_ratios self !! form = Some ρ
    ∧ forms self !! form = Some mix
    ∧ map_result (col df) (uses self) = Ok rents
    ∧ columns df !! "max_height" = Some c_mh
    ∧ columns df !! "parcel_size" = Some c_ps
    ∧ columns df !! "land_cost" = Some c_lc
    ∧ _min_max_fars self
        (set_col
           (set_col df "weighted_rent"
              ((λ j, np_dot (row_of rents j) mix) <$> seq 0 (length (index df))))
           "max_far_from_heights"
           ((λ h, h / height_per_story self * parcel_coverage self) <$> c_mh)) ρ
      = Ok (mmf0, df3)
    ∧ index df !! j0 = Some lbl
    ∧ (only_built self = true →
       (default NaN (mmf0 !! j0) >? #0) = true
       ∧ (default NaN (c_ps !! j0) >? #0) = true)
    ∧ let sa := site_arrays self dev_info
                  (default NaN (mmf0 !! j0)) (default NaN (c_mh !! j0))
                  (default NaN (c_ps !! j0)) (default NaN (c_lc !! j0))
                  (np_dot (row_of rents j0) mix) in
      np_argmax ((λ x, if isnan x then NInf else x)
                   <$> zip_with sub (sa_building_revenue sa)
                         (sa_total_development_costs sa)) = Ok i
      ∧ keep_row self r = true
      ∧ label r = lbl
      ∧ ∃ b bc pr h tc rev f mp ct fc,
          sa_building_bulks sa !! i = Some b
          ∧ sa_building_costs sa !! i = Some bc
          ∧ (parking_sqft_ratio <$> dev_info) !! i = Some pr
          ∧ (height <$> dev_info) !! i = Some h
          ∧ sa_total_development_costs sa !! i = Some tc
          ∧ sa_building_revenue sa !! i = Some rev
          ∧ sa_fars sa !! i = Some f
          ∧ mp = (if isnan (rev - tc) then NInf else rev - tc)
          ∧ (ref_construction_months <$> dev_info) !! i = Some ct
          ∧ sa_total_financing_costs sa !! i = Some fc
          ∧ ∀ k, k ∉ pass_through self →
                 k ≠ "residential_sqft" → k ≠ "non_residential_sqft" →
                 get_val k r = get_val k (out_row self cfg lbl b bc pr h tc rev f mp ct fc).
Proof.
  unfold _lookup_parking_cfg. intros H Hr.
  bind_as H dev_info Hdev. apply or_raise_Ok in Hdev.
  bind_as H ρ Hρ. apply or_raise_Ok in Hρ.
  bind_as H rents Hrents.
  bind_as H mix Hmix. apply or_raise_Ok in Hmix.
  cbn [modify_df modify_revenues modify_costs modify_profits no_hooks apply_hook] in H.
  bind_as H df1 Hdf1. injection Hdf1 as <-.
  bind_as H c_mh Hmh. apply or_raise_Ok in Hmh.
  bind_as H p Hmm. destruct p as [mmf0 df3].
  bind_as H df5 Hdf5.
  bind_as H mmf5 Hmmf5. apply or_raise_Ok in Hmmf5.
  bind_as H mh5 Hmh5. apply or_raise_Ok in Hmh5.
  bind_as H ps5 Hps5. apply or_raise_Ok in Hps5.
  bind_as H lc5 Hlc5. apply or_raise_Ok in Hlc5.
  bind_as H wr5 Hwr5. apply or_raise_Ok in Hwr5.
  bind_as H rev0 Hrev0. injection Hrev0 as <-.
  bind_as H tdc0 Htdc0. injection Htdc0 as <-.
  bind_as H profit0 Hprofit0.
  bind_as H profit1 Hprofit1. injection Hprofit1 as <-.
  bind_as H u Hne. destruct u.
  bind_as H idx Hidx.
  bind_as H o_b Hob.
  bind_as H o_bc Hobc.
  bind_as H o_pr Hopr.
  bind_as H o_h Hoh.
  bind_as H o_tc Hotc.
  bind_as H o_rev Horev.
  bind_as H o_f Hof.
  bind_as H o_mp Homp.
  bind_as H o_ct Hoct.
  bind_as H o_fc Hofc.
  bind_as H u Hlen. destruct u.
  bind_as H passed Hpassed.
  injection H as H. subst out.
  apply list_elem_of_filter in Hr as [Hkeep Hr].
  apply list_elem_of_fmap in Hr as (j & Hrj & Hj).
  apply elem_of_seq in Hj as [_ Hj]. simpl in Hj.
  pose proof (min_max_fars_index _ _ _ _ _ Hmm) as Hidx3. simpl in Hidx3.
  assert (Hcol3 : ∀ name, name ≠ "max_far_from_dua" → name ≠ "max_far_from_heights" →
            name ≠ "weighted_rent" → columns df3 !! name = columns df !! name).
  { intros name H1 H2 H3. rewrite (min_max_fars_columns _ _ _ _ _ _ Hmm) by done.
    simpl. by rewrite !lookup_insert_ne. }
  cbn [columns set_col] in Hmh. rewrite lookup_insert_ne in Hmh by done.
  assert (Hwr3 : columns df3 !! "weighted_rent"
                 = Some ((λ j, np_dot (row_of rents j) mix) <$> seq 0 (length (index df)))).
  { rewrite (min_max_fars_columns _ _ _ _ _ _ Hmm) by done.
    simpl. rewrite lookup_insert_ne by done. by rewrite lookup_insert_eq. }
  assert (Hal : ∃ j0 lbl c_ps c_lc,
            index df !! j0 = Some lbl ∧ index df5 !! j = Some lbl
            ∧ columns df !! "parcel_size" = Some c_ps
            ∧ columns df !! "land_cost" = Some c_lc
            ∧ mmf5 !! j = mmf0 !! j0 ∧ mh5 !! j = c_mh !! j0
            ∧ ps5 !! j = c_ps !! j0 ∧ lc5 !! j = c_lc !! j0
            ∧ wr5 !! j = Some (np_dot (row_of rents j0) mix)
            ∧ (only_built self = true →
               (default NaN (mmf0 !! j0) >? #0) = true
               ∧ (default NaN (c_ps !! j0) >? #0) = true)).
  { destruct (only_built self) eqn:Hob5.
    - bind_as Hdf5 ps4 Hps4. injection Hdf5 as <-. apply or_raise_Ok in Hps4.
      simpl in Hps4. rewrite lookup_insert_ne in Hps4 by done.
      rewrite Hcol3 in Hps4 by done.
      simpl in Hj, Hmmf5, Hmh5, Hps5, Hlc5, Hwr5.
      rewrite lookup_fmap in Hmmf5, Hmh5, Hps5, Hlc5, Hwr5.
      rewrite lookup_insert_eq in Hmmf5.
      rewrite lookup_insert_ne in Hmh5, Hps5, Hlc5, Hwr5 by done.
      rewrite Hcol3 in Hmh5, Hps5, Hlc5 by done.
      rewrite Hmh in Hmh5. rewrite Hps4 in Hps5. rewrite Hwr3 in Hwr5.
      destruct (columns df !! "land_cost") as [c_lc|] eqn:Hlc; [|done].
      simpl in Hmmf5, Hmh5, Hps5, Hlc5, Hwr5.
      injection Hmmf5 as <-. injection Hmh5 as <-. injection Hps5 as <-.
      injection Hlc5 as <-. injection Hwr5 as <-.
      set (mask := zip_with (λ m p : num, (m >? #0) && (p >? #0)) mmf0 ps4) in *.
      destruct (select_lookup mask j) as (oj & Hsel & Hmask).
      destruct (lookup_lt_is_Some_2 _ _ Hj) as [lbl Hlbl].
      pose proof Hlbl as Hlbl'. rewrite Hsel in Hlbl'.
      destruct oj as [j0|]; [|done]. simpl in Hlbl'.
      exists j0, lbl, ps4, c_lc. rewrite !Hsel. simpl.
      rewrite Hidx3 in Hlbl'.
      split; [done|]. split; [done|]. do 6 (split; [done|]). split.
      + rewrite list_lookup_fmap, lookup_seq_lt; [done|]. by eapply lookup_lt_Some.
      + intros _. specialize (Hmask j0 eq_refl). unfold mask in Hmask.
        apply lookup_zip_with_Some in Hmask as (m & p & Hmp & -> & ->).
        simpl. symmetry in Hmp. by apply andb_true_iff in Hmp.
    - injection Hdf5 as <-. simpl in Hj, Hmmf5, Hmh5, Hps5, Hlc5, Hwr5.
      rewrite lookup_insert_eq in Hmmf5.
      rewrite lookup_insert_ne in Hmh5, Hps5, Hlc5, Hwr5 by done.
      rewrite Hcol3 in Hmh5, Hps5, Hlc5 by done.
      rewrite Hwr3 in Hwr5.
      injection Hmmf5 as <-. injection Hwr5 as <-.
      assert (mh5 = c_mh) as -> by congruence.
      destruct (lookup_lt_is_Some_2 _ _ Hj) as [lbl Hlbl].
      cbn [index set_col] in Hlbl, Hj.
      exists j, lbl, ps5, lc5. cbn [index set_col]. rewrite Hidx3 in Hlbl, Hj |- *.
      do 8 (split; [done|]). split; [|done].
      by rewrite list_lookup_fmap, lookup_seq_lt. }
  destruct Hal as (j0 & lbl & c_ps & c_lc & Hlbl & Hlbl5 & Hps & Hlc & Em & Eh & Ep & El
                   & Ew & Hbuilt).
  set (sa := site_arrays self dev_info (default NaN (mmf0 !! j0))
               (default NaN (c_mh !! j0)) (default NaN (c_ps !! j0))
               (default NaN (c_lc !! j0)) (np_dot (row_of rents j0) mix)).
  set (sites := (λ j : nat,
           site_arrays self dev_info (default NaN (mmf5 !! j))
             (default NaN (mh5 !! j)) (default NaN (ps5 !! j))
             (default NaN (lc5 !! j)) (default NaN (wr5 !! j))) <$>
        seq 0 (length (index df5))) in *.
  assert (Hsite : sites !! j = Some sa).
  { unfold sites. rewrite list_lookup_fmap, lookup_seq_lt by done. simpl.
    by rewrite Em, Eh, Ep, El, Ew. }
  destruct (bool_decide (length idx = length (index df5))) eqn:Hlen'; [|done].
  apply bool_decide_eq_true in Hlen'.
  assert (Hlens : length idx = length sites).
  { unfold sites. by rewrite length_fmap, length_seq. }
  unfold matrix_sub in Hprofit0. destruct (same_shape _ _); [|done].
  injection Hprofit0 as <-.
  assert (Hprof : nan_to_neginf
                    (zip_with (zip_with sub) (sa_building_revenue <$> sites)
                       (sa_total_development_costs <$> sites))
                  = (λ s, (λ x, if isnan x then NInf else x)
                            <$> zip_with sub (sa_building_revenue s)
                                  (sa_total_development_costs s)) <$> sites).
  { unfold nan_to_neginf. rewrite zip_with_fmap_l, zip_with_fmap_r, zip_with_diag.
    by rewrite <-list_fmap_compose. }
  rewrite Hprof in Hidx, Homp.
  destruct (lookup_lt_is_Some_2 idx j) as [i Hi]; [lia|].
  pose proof Hidx as Hidx'. apply map_result_Forall2 in Hidx'.
  destruct (Forall2_lookup_r _ _ _ _ _ Hidx' Hi) as (prow & Hprow & Hargmax).
  rewrite list_lookup_fmap, Hsite in Hprow. injection Hprow as <-.
  destruct (twod_get_site _ _ _ _ _ _ _ Hob Hi Hsite Hlens) as (b & Hb & Hb').
  destruct (twod_get_site _ _ _ _ _ _ _ Hobc Hi Hsite Hlens) as (bc & Hbc & Hbc').
  destruct (twod_get_site _ _ _ _ _ _ _ Hoh Hi Hsite Hlens) as (h & Hh & Hh').
  destruct (twod_get_site _ _ _ _ _ _ _ Hotc Hi Hsite Hlens) as (tc & Htc & Htc').
  destruct (twod_get_site _ _ _ _ _ _ _ Horev Hi Hsite Hlens) as (rev & Hrev & Hrev').
  destruct (twod_get_site _ _ _ _ _ _ _ Hof Hi Hsite Hlens) as (f & Hf & Hf').
  destruct (twod_get_site _ _ _ _ _ _ _ Homp Hi Hsite Hlens) as (mp & Hmp & Hmp').
  destruct (twod_get_site _ _ _ _ _ _ _ Hoct Hi Hsite Hlens) as (ct & Hct & Hct').
  destruct (twod_get_site _ _ _ _ _ _ _ Hofc Hi Hsite Hlens) as (fc & Hfc & Hfc').
  destruct (lookup_lt_is_Some_2 o_pr j) as [pr Hpr].
  { rewrite (map_result_length _ _ _ Hopr). lia. }
  destruct (map_result_lookup _ _ _ _ _ Hopr Hpr) as (i' & Hi' & Hpr').
  assert (i' = i) as -> by congruence. apply or_raise_Ok in Hpr'.
  cbv beta in Hmp', Hb', Hbc', Hh', Htc', Hrev', Hf', Hct', Hfc'.
  rewrite list_lookup_fmap in Hmp'.
  destruct (zip_with sub _ _ !! i) as [x|] eqn:Hz in Hmp'; [|done].
  apply lookup_zip_with_Some in Hz as (rev' & tc' & -> & Hrev'' & Htc'').
  assert (rev' = rev) as -> by congruence. assert (tc' = tc) as -> by congruence.
  injection Hmp' as Hmp'.
  exists dev_info, ρ, mix, rents, c_mh, c_ps, c_lc, mmf0, df3, j0, lbl, i.
  split; [exact Hdev|]. split; [exact Hρ|]. split; [exact Hmix|].
  split; [exact Hrents|]. split; [exact Hmh|]. split; [exact Hps|].
  split; [exact Hlc|]. split; [exact Hmm|]. split; [exact Hlbl|].
  split; [exact Hbuilt|]. cbv zeta. fold sa.
  split; [exact Hargmax|]. split; [exact Hkeep|].
  match type of Hrj with
  | _ = set_sqft_split self ?a ?b' (set_pass_through ?ns ?cs j ?r0) =>
    destruct (set_pass_through_spec ns cs j r0) as (Hl & _ & Hv);
    destruct (set_sqft_split_spec self a b' (set_pass_through ns cs j r0))
      as (Hl' & _ & Hv')
  end.
  split.
  { rewrite Hrj, Hl', Hl. simpl. by rewrite Hlbl5. }
  exists b, bc, pr, h, tc, rev, f, mp, ct, fc.
  split; [exact Hb'|]. split; [exact Hbc'|].
  split; [by rewrite list_lookup_fmap|]. split; [exact Hh'|].
  split; [exact Htc'|]. split; [exact Hrev'|]. split; [exact Hf'|].
  split; [by rewrite Hmp'|]. split; [exact Hct'|]. split; [exact Hfc'|].
  intros k Hk H1 H2. rewrite Hrj, Hv', Hv by done.
  by rewrite Hlbl5, Hb, Hbc, Hpr, Hh, Htc, Hrev, Hf, Hmp, Hct, Hfc.
Qed.

Lemma isnan_add (x y : num) : isnan (x + y) = false → isnan x = false ∧ isnan y = false.
Proof. by destruct x, y. Qed.

Lemma isnan_neg (x : num) : isnan (neg x) = isnan x.
Proof. by destruct x. Qed.

Lemma isnan_sub (x y : num) : isnan (x - y) = false → isnan x = false ∧ isnan y = false.
Proof. unfold sub. intros [? ?]%isnan_add. by rewrite isnan_neg in *. Qed.

Lemma isnan_mul (x y : num) : isnan (x * y) = false → isnan x = false ∧ isnan y = false.
Proof. by destruct x, y. Qed.

Lemma isnan_div (x y : num) : isnan (x / y) = false → isnan x = false ∧ isnan y = false.
Proof. by destruct x, y. Qed.

(** The entries of the arrays of one site at one far of the reference
    table. *)
Lemma site_arrays_lookup (self : SqFtProForma) dev_info mmf mh ps lc wr i (e : RefRow) :
  dev_info !! i = Some e →
  let sa := site_arrays self dev_info mmf mh ps lc wr in
  ∃ f, site_fars dev_info mmf mh !! i = Some f
    ∧ sa_fars sa !! i = Some f
    ∧ sa_building_bulks sa !! i = Some (f * ps)
    ∧ sa_building_costs sa !! i = Some (f * ps * ave_cost_sqft e)
    ∧ (let loan := (f * ps * ave_cost_sqft e + lc) * loan_to_cost_ratio self in
       sa_total_financing_costs sa !! i
       = Some (loan * drawdown_factor self
                 * (interest_rate self / #12 * ref_construction_months e)
               + loan * loan_fees self)
       ∧ sa_total_development_costs sa !! i
         = Some (f * ps * ave_cost_sqft e + lc
                 + (loan * drawdown_factor self
                      * (interest_rate self / #12 * ref_construction_months e)
                    + loan * loan_fees self)))
    ∧ sa_building_revenue sa !! i
      = Some (f * ps * (one - parking_sqft_ratio e) * building_efficiency self
                * wr / cap_rate self).
Proof.
  intros He sa.
  destruct (site_fars dev_info mmf mh !! i) as [f|] eqn:Hf.
  2:{ unfold site_fars in Hf. rewrite list_lookup_fmap, He in Hf. done. }
  exists f. split; [done|]. unfold sa, site_arrays. cbn [sa_fars sa_building_bulks
    sa_building_costs sa_total_financing_costs sa_total_development_costs
    sa_building_revenue].
  split; [done|].
  assert (Hb : ((λ f, f * ps) <$> site_fars dev_info mmf mh) !! i = Some (f * ps)).
  { by rewrite list_lookup_fmap, Hf. }
  split; [done|].
  assert (Hbc : zip_with (λ b (r : RefRow), b * ave_cost_sqft r)
                  ((λ f, f * ps) <$> site_fars dev_info mmf mh) dev_info !! i
                = Some (f * ps * ave_cost_sqft e)).
  { apply lookup_zip_with_Some. eauto. }
  split; [done|]. cbv zeta.
  repeat first
    [ exact He | exact Hb | exact Hbc
    | split
    | apply lookup_zip_with_Some; eexists _, _; split; [reflexivity|]
    | rewrite list_lookup_fmap
    | rewrite Hbc; cbn [fmap option_fmap option_map]; reflexivity
    | rewrite Hb; cbn [fmap option_fmap option_map]; reflexivity ].
Qed.

(** What a far that the zoning masks of a site let through satisfies. *)
Lemma site_fars_lookup dev_info mmf mh i f :
  site_fars dev_info mmf mh !! i = Some f → isnan f = false →
  ∃ e, dev_info !! i = Some e ∧ f = far e
    ∧ (nan_to_num (far e) >? mmf + #0.01) = false
    ∧ (isnan (height e) = false → (nan_to_num (height e) >? mh + #0.01) = false).
Proof.
  unfold site_fars. rewrite list_lookup_fmap. intros H Hf.
  destruct (dev_info !! i) as [e|]; [|done]. injection H as H. exists e.
  split; [done|]. subst f.
  destruct (isnan (height e)) eqn:Hh; simpl in Hf |- *.
  - destruct (isnan (far e)) eqn:Hfe; simpl in Hf |- *; [by destruct (far e)|].
    destruct (nan_to_num (far e) >? mmf + #0.01); done.
  - destruct (nan_to_num (height e) >? mh + #0.01); [done|].
    destruct (isnan (far e)) eqn:Hfe; simpl in Hf |- *; [by destruct (far e)|].
    destruct (nan_to_num (far e) >? mmf + #0.01); done.
Qed.

Lemma pd_min2_le acc y x :
  (acc <=? x) = true → (pd_min2 acc y <=? x) = true.
Proof.
  intros H. unfold pd_min2. rewrite (leb_isnan_l _ _ H).
  destruct (isnan y); [done|]. destruct (y <? acc) eqn:Hy; [|done].
  by eapply ltb_leb, ltb_leb_trans.
Qed.

Lemma foldl_pd_min2_le l acc x :
  (acc <=? x) = true ∨ (x ∈ l ∧ isnan x = false) →
  (foldl pd_min2 acc l <=? x) = true.
Proof.
  revert acc. induction l as [|y l IH]; intros acc [H | [Hin Hx]]; simpl.
  - done.
  - by apply elem_of_nil in Hin.
  - apply IH. left. by apply pd_min2_le.
  - apply elem_of_cons in Hin as [<- | Hin]; [|apply IH; by right].
    apply IH. left. unfold pd_min2.
    destruct (isnan acc) eqn:Ha; [by apply leb_refl|]. rewrite Hx.
    destruct (x <? acc) eqn:Hlt; [by apply leb_refl|].
    destruct (acc <=? x) eqn:Hle; [done|].
    by rewrite (leb_false_ltb _ _ Ha Hx Hle) in Hlt.
Qed.

Lemma pd_min_le l x : x ∈ l → isnan x = false → (pd_min l <=? x) = true.
Proof. intros. apply foldl_pd_min2_le. by right. Qed.

Lemma foldl_pd_min2_nan l acc :
  isnan (foldl pd_min2 acc l) = false →
  isnan acc = false ∨ ∃ x, x ∈ l ∧ isnan x = false.
Proof.
  revert acc. induction l as [|y l IH]; intros acc H; simpl in H; [by left|].
  apply IH in H as [H | (x & Hx & Hn)].
  - unfold pd_min2 in H. destruct (isnan acc) eqn:Ha; [|by left].
    right. exists y. split; [by left | done].
  - right. exists x. split; [by right | done].
Qed.

Lemma pd_min_not_nan l :
  isnan (pd_min l) = false → ∃ x, x ∈ l ∧ isnan x = false.
Proof. intros H. by apply foldl_pd_min2_nan in H as [? | ?]. Qed.

Lemma min_axis1_lookup (df : DataFrame) names m j y :
  min_axis1 df names = Ok m → m !! j = Some y →
  ∃ cols, map_result (col df) names = Ok cols ∧ y = pd_min (row_of cols j).
Proof.
  unfold min_axis1. intros H Hy. inv_bind H. subst m. exists x. split; [done|].
  rewrite list_lookup_fmap in Hy.
  destruct (seq _ _ !! j) as [j'|] eqn:Hj; [|done]. injection Hy as <-.
  apply lookup_seq in Hj as [-> _]. done.
Qed.

Lemma min_axis1_length (df : DataFrame) names m :
  min_axis1 df names = Ok m → length m = length (index df).
Proof.
  unfold min_axis1. intros H. inv_bind H. subst m.
  by rewrite length_fmap, length_seq.
Qed.

Lemma row_of_elem_of (df : DataFrame) names cols name c j x :
  map_result (col df) names = Ok cols → name ∈ names →
  columns df !! name = Some c → c !! j = Some x → x ∈ row_of cols j.
Proof.
  intros H [k Hk]%list_elem_of_lookup Hc Hx.
  apply map_result_Forall2 in H.
  destruct (Forall2_lookup_l _ _ _ _ _ H Hk) as (c' & Hc' & Hcol).
  apply or_raise_Ok in Hcol. assert (c' = c) as -> by congruence.
  unfold row_of. apply list_elem_of_omap. exists c.
  split; [by eapply list_elem_of_lookup_2 | done].
Qed.

Lemma row_of_elem_of_inv (df : DataFrame) names cols j x :
  map_result (col df) names = Ok cols → x ∈ row_of cols j →
  ∃ name c, name ∈ names ∧ columns df !! name = Some c ∧ c !! j = Some x.
Proof.
  intros H Hx. unfold row_of in Hx. apply list_elem_of_omap in Hx as (c & Hc & Hx).
  destruct (map_result_elem_of _ _ _ _ H Hc) as (name & Hname & Hcol).
  apply or_raise_Ok in Hcol. eauto.
Qed.

(** The far cap of a site is the least of the caps that are set. *)
Lemma min_max_fars_spec (self : SqFtProForma) df ρ m df' :
  _min_max_fars self df ρ = Ok (m, df') →
  length m = length (index df)
  ∧ ∀ j y, m !! j = Some y →
      (∀ name c x, name ∈ ["max_far_from_heights"; "max_far"] →
         columns df !! name = Some c → c !! j = Some x → isnan x = false →
         (y <=? x) = true)
      ∧ (isnan y = false →
         ∃ name c x, columns df' !! name = Some c ∧ c !! j = Some x
           ∧ isnan x = false
           ∧ (name = "max_far_from_heights" ∨ name = "max_far"
              ∨ (name = "max_far_from_dua"
                 ∧ is_Some (columns df !! "max_dua") ∧ (ρ >? #0) = true))).
Proof.
  unfold _min_max_fars. intros H.
  destruct (bool_decide (is_Some (columns df !! "max_dua")) && (ρ >? #0)) eqn:Hg.
  - apply andb_true_iff in Hg as [Hdua%bool_decide_eq_true Hρ].
    inv_bind H. simplify_eq.
    split; [by rewrite (min_axis1_length _ _ _ Hx3)|].
    intros j y Hy.
    destruct (min_axis1_lookup _ _ _ _ _ Hx3 Hy) as (cols & Hcols & ->). split.
    + intros name c v Hname Hc Hv Hnan. apply pd_min_le; [|done].
      eapply (row_of_elem_of _ _ _ name); [done | | | done].
      * rewrite !elem_of_cons, elem_of_nil in Hname.
        destruct Hname as [-> | [-> | []]]; repeat constructor.
      * simpl. rewrite lookup_insert_ne; [done|].
        rewrite !elem_of_cons, elem_of_nil in Hname.
        by destruct Hname as [-> | [-> | []]].
    + intros Hnan. apply pd_min_not_nan in Hnan as (v & Hv & Hnan).
      destruct (row_of_elem_of_inv _ _ _ _ _ Hcols Hv) as (name & c & Hname & Hc & Hcv).
      exists name, c, v. do 3 (split; [done|]).
      rewrite !elem_of_cons, elem_of_nil in Hname. tauto.
  - inv_bind H. simplify_eq.
    split; [by rewrite (min_axis1_length _ _ _ Hx)|].
    intros j y Hy.
    destruct (min_axis1_lookup _ _ _ _ _ Hx Hy) as (cols & Hcols & ->). split.
    + intros name c v Hname Hc Hv Hnan. apply pd_min_le; [|done].
      by eapply (row_of_elem_of _ _ _ name).
    + intros Hnan. apply pd_min_not_nan in Hnan as (v & Hv & Hnan).
      destruct (row_of_elem_of_inv _ _ _ _ _ Hcols Hv) as (name & c & Hname & Hc & Hcv).
      exists name, c, v. do 3 (split; [done|]).
      rewrite !elem_of_cons, elem_of_nil in Hname. tauto.
Qed.



(** The rows of a lookup result and the rows of the frames of the parking
    configurations: the last step, the division of the [residential]
    column, leaves the label and every other column. *)
Lemma lookup_row_frame (self : SqFtProForma) form df hooks out r :
  (lookup self form df hooks).1 = Ok out → r ∈ out →
  ∃ cfg frame r1,
    cfg ∈ parking_configs self
    ∧ _lookup_parking_cfg self form cfg (working_table self form df) hooks = Ok frame
    ∧ r1 ∈ frame
    ∧ label r = label r1
    ∧ ∀ k, k ≠ "residential" → get_val k r = get_val k r1.
Proof.
  intros H Hr.
  destruct (lookup_rows _ _ _ _ _ _ H Hr) as (cfg & frame & r1 & Hcfg & Hf & Hr1 & Hrel).
  exists cfg, frame, r1. do 3 (split; [done|]).
  destruct Hrel as [-> | [x ->]]; [done|].
  split; [by rewrite label_set_val|].
  intros k Hk. by apply get_val_set_val_other.
Qed.

Lemma keep_row_max_profit (self : SqFtProForma) r :
  keep_row self r = true → get_val "max_profit" r ≠ NInf.
Proof.
  unfold keep_row. destruct (only_built self).
  - intros H Heq. rewrite Heq in H. done.
  - intros H%negb_true_iff. by apply bool_decide_eq_false in H.
Qed.

(** What the rows of a lookup without hooks are made of: the site of the
    input table, the entry of the reference table that was chosen, and the
    values of the profit calculation at that entry. *)
Lemma lookup_row_entry (self : SqFtProForma) form df out r :
  "max_profit" ∉ pass_through self →
  (lookup self form df no_hooks).1 = Ok out → r ∈ out →
  ∃ cfg dev_info (e : RefRow) rents mix c_mh c_ps c_lc mmf0 df3 j,
    let wt := working_table self form df in
    let mmf := default NaN (mmf0 !! j) in
    let mh := default NaN (c_mh !! j) in
    let ps := default NaN (c_ps !! j) in
    let lc := default NaN (c_lc !! j) in
    let wr := np_dot (row_of rents j) mix in
    let b := far e * ps in
    let bc := b * ave_cost_sqft e in
    let loan := (bc + lc) * loan_to_cost_ratio self in
    let fc := loan * drawdown_factor self
                * (interest_rate self / #12 * ref_construction_months e)
              + loan * loan_fees self in
    let tc := bc + lc + fc in
    let rev := b * (one - parking_sqft_ratio e) * building_efficiency self
                 * wr / cap_rate self in
    cfg ∈ parking_configs self
    ∧ reference_dict self !! (form, cfg) = Some dev_info
    ∧ e ∈ dev_info
    ∧ forms self !! form = Some mix
    ∧ map_result (col wt) (uses self) = Ok rents
    ∧ columns wt !! "max_height" = Some c_mh
    ∧ columns wt !! "parcel_size" = Some c_ps
    ∧ columns wt !! "land_cost" = Some c_lc
    ∧ (∃ ρ, res_ratios self !! form = Some ρ
         ∧ _min_max_fars self
             (set_col
                (set_col wt "weighted_rent"
                   ((λ j, np_dot (row_of rents j) mix) <$> seq 0 (length (index wt))))
                "max_far_from_heights"
                ((λ h, h / height_per_story self * parcel_coverage self) <$> c_mh)) ρ
           = Ok (mmf0, df3))
    ∧ index df !! j = Some (label r)
    ∧ (only_built self = true → (mmf >? #0) = true ∧ (ps >? #0) = true)
    ∧ isnan (far e) = false
    ∧ (nan_to_num (far e) >? mmf + #0.01) = false
    ∧ (isnan (height e) = false → (nan_to_num (height e) >? mh + #0.01) = false)
    ∧ isnan (rev - tc) = false
    ∧ ∀ k, k ∉ pass_through self → k ≠ "residential" →
           k ≠ "residential_sqft" → k ≠ "non_residential_sqft" →
           get_val k r
           = get_val k (out_row self cfg (label r) b bc (parking_sqft_ratio e)
                          (height e) tc rev (far e) (rev - tc)
                          (ref_construction_months e) fc).
Proof.
  intros Hmp H Hr.
  destruct (lookup_row_frame _ _ _ _ _ _ H Hr)
    as (cfg & frame & r1 & Hcfg & Hf & Hr1 & Hlbl & Hvals).
  destruct (lookup_parking_cfg_site _ _ _ _ _ _ Hf Hr1)
    as (dev_info & ρ & mix & rents & c_mh & c_ps & c_lc & mmf0 & df3 & j & lbl & i
        & Hdev & Hρ & Hmix & Hrents & Hmh & Hps & Hlc & Hmm & Hj & Hbuilt & Hrow).
  cbv zeta in Hrow.
  destruct Hrow as (Harg & Hkeep & Hl1 & b & bc & pr & h & tc & rev & f & mp & ct & fc
                    & Hb & Hbc & Hpr & Hh & Htc & Hrev & Hf' & Hmpeq & Hct & Hfc & Hget).
  rewrite list_lookup_fmap in Hpr, Hh, Hct.
  destruct (dev_info !! i) as [e|] eqn:He; [|done].
  injection Hpr as <-. injection Hh as <-. injection Hct as <-.
  destruct (site_arrays_lookup self dev_info (default NaN (mmf0 !! j))
              (default NaN (c_mh !! j)) (default NaN (c_ps !! j))
              (default NaN (c_lc !! j)) (np_dot (row_of rents j) mix) i e He)
    as (f0 & Hsf & Hf0 & Hb0 & Hbc0 & [Hfc0 Htc0] & Hrev0).
  rewrite Hf' in Hf0. injection Hf0 as <-.
  rewrite Hb in Hb0. injection Hb0 as ->.
  rewrite Hbc in Hbc0. injection Hbc0 as ->.
  rewrite Hfc in Hfc0. injection Hfc0 as ->.
  rewrite Htc in Htc0. injection Htc0 as ->.
  rewrite Hrev in Hrev0. injection Hrev0 as ->.
  apply keep_row_max_profit in Hkeep.
  rewrite Hget in Hkeep by done. rewrite out_row_max_profit in Hkeep.
  match type of Hmpeq with mp = if isnan ?p then _ else _ =>
    destruct (isnan p) eqn:Hnan; [congruence|] end.
  subst mp.
  pose proof Hnan as Hnan'.
  apply isnan_sub in Hnan' as [Hnrev _].
  repeat match type of Hnrev with
         | isnan (_ * _) = false => apply isnan_mul in Hnrev as [Hnrev _]
         | isnan (_ / _) = false => apply isnan_div in Hnrev as [Hnrev _]
         end.
  destruct (site_fars_lookup _ _ _ _ _ Hsf Hnrev) as (e' & He' & -> & Hfar & Hheight).
  assert (e' = e) as -> by congruence.
  exists cfg, dev_info, e, rents, mix, c_mh, c_ps, c_lc, mmf0, df3, j. cbv zeta.
  rewrite working_table_index in *.
  split; [exact Hcfg|]. split; [exact Hdev|].
  split; [by eapply list_elem_of_lookup_2|].
  split; [exact Hmix|]. split; [exact Hrents|]. split; [exact Hmh|].
  split; [exact Hps|]. split; [exact Hlc|]. split; [by exists ρ|].
  split; [by rewrite Hlbl, Hl1|]. split; [exact Hbuilt|].
  split; [exact Hnrev|]. split; [exact Hfar|]. split; [exact Hheight|].
  split; [exact Hnan|].
  intros k Hk Hk1 Hk2 Hk3. rewrite Hvals by done. rewrite Hget by done.
  by rewrite Hlbl, Hl1.
Qed.

(** ** Zoning and accounting *)


Lemma value_at_Some df name j x :
  value_at df name j = Some x ↔ ∃ c, columns df !! name = Some c ∧ c !! j = Some x.
Proof.
  unfold value_at. destruct (columns df !! name) as [c|]; simpl.
  - split; [eauto | by intros (c' & [= <-] & ?)].
  - split; [done | by intros (c' & ? & _)].
Qed.


Lemma residential_lookup_length : length residential_lookup = 1%nat.
Proof. vm_compute. reflexivity. Qed.



(** X2.  Without hooks the [max_profit] of every row of a lookup result
    is its [building_revenue] less its [total_cost] and is not NaN, and the
    [total_cost] is the [building_cost] plus the land cost of the row's
    site plus the [financing_cost], added in that order. *)
Theorem lookup_profit_accounting (self : SqFtProForma) form df out r :
  Forall (λ k, k ∉ pass_through self)
    ["max_profit"; "building_revenue"; "total_cost"; "building_cost";
     "financing_cost"] →
  (lookup self form df no_hooks).1 = Ok out → r ∈ out →
  get_val "max_profit" r = get_val "building_revenue" r - get_val "total_cost" r
  ∧ isnan (get_val "max_profit" r) = false
  ∧ ∃ j c_lc,
      index df !! j = Some (label r)
      ∧ columns df !! "land_cost" = Some c_lc
      ∧ get_val "total_cost" r
        = get_val "building_cost" r + default NaN (c_lc !! j)
          + get_val "financing_cost" r.
Proof.
  intros Hpt H Hr. rewrite !Forall_cons in Hpt.
  destruct Hpt as (Hp1 & Hp2 & Hp3 & Hp4 & Hp5 & _).
  destruct (lookup_row_entry _ _ _ _ _ Hp1 H Hr)
    as (cfg & dev_info & e & rents & mix & c_mh & c_ps & c_lc & mmf0 & df3 & j & Hrow).
  cbv zeta in Hrow.
  destruct Hrow as (Hcfg & Hdev & He & Hmix & Hrents & Hmh & Hps & Hlc & _
                    & Hj & Hbuilt & Hfar & Hcap & Hheight & Hprofit & Hget).
  rewrite !Hget by done.
  split; [reflexivity|]. split; [exact Hprofit|].
  exists j, c_lc. split; [done|]. split; [|reflexivity].
  unfold working_table in Hlc. destruct (simple_zoning self); [|done].
  by rewrite simple_zoning_keeps in Hlc.
Qed.

Lemma lookup_profit_accounting_witness :
  (lookup default_pf "residential" test_df no_hooks).1 = Ok residential_lookup
  ∧ length residential_lookup = 1%nat
  ∧ Forall (λ r, get_val "max_profit" r
                 = get_val "building_revenue" r - get_val "total_cost" r)
      residential_lookup.
Proof.
  split; [apply get_ok_eq|]. split; [exact residential_lookup_length|].
  apply Forall_forall. intros r Hr.
  destruct (lookup_profit_accounting default_pf "residential" test_df
              residential_lookup r) as [Hprofit _].
  - repeat constructor; vm_compute; apply not_elem_of_nil.
  - apply get_ok_eq.
  - exact Hr.
  - exact Hprofit.
Defined.

(** X3.  Without hooks the [financing_cost] of every row of a lookup
    result is the interest and the fees of a loan for the
    [loan_to_cost_ratio] part of the building and land cost: the interest
    is the loan times the drawdown factor times the monthly interest rate
    times the [construction_time] of the row, the fees are the loan times
    [loan_fees]. *)
Theorem lookup_financing_cost (self : SqFtProForma) form df out r :
  Forall (λ k, k ∉ pass_through self)
    ["max_profit"; "building_cost"; "financing_cost"; "construction_time"] →
  (lookup self form df no_hooks).1 = Ok out → r ∈ out →
  ∃ j c_lc,
    index df !! j = Some (label r)
    ∧ columns df !! "land_cost" = Some c_lc
    ∧ let loan := (get_val "building_cost" r + default NaN (c_lc !! j))
                  * loan_to_cost_ratio self in
      get_val "financing_cost" r
      = loan * drawdown_factor self
          * (interest_rate self / #12 * get_val "construction_time" r)
        + loan * loan_fees self.
Proof.
  intros Hpt H Hr. rewrite !Forall_cons in Hpt.
  destruct Hpt as (Hp1 & Hp2 & Hp3 & Hp4 & _).
  destruct (lookup_row_entry _ _ _ _ _ Hp1 H Hr)
    as (cfg & dev_info & e & rents & mix & c_mh & c_ps & c_lc & mmf0 & df3 & j & Hrow).
  cbv zeta in Hrow.
  destruct Hrow as (Hcfg & Hdev & He & Hmix & Hrents & Hmh & Hps & Hlc & _
                    & Hj & Hbuilt & Hfar & Hcap & Hheight & Hprofit & Hget).
  exists j, c_lc. split; [done|]. split.
  { unfold working_table in Hlc. destruct (simple_zoning self); [|done].
    by rewrite simple_zoning_keeps in Hlc. }
  cbv zeta. rewrite !Hget by done. reflexivity.
Qed.

Lemma lookup_financing_cost_witness :
  (lookup default_pf "residential" test_df no_hooks).1 = Ok residential_lookup
  ∧ length residential_lookup = 1%nat
  ∧ Forall (λ r, ∃ j c_lc,
        index test_df !! j = Some (label r)
        ∧ columns test_df !! "land_cost" = Some c_lc
        ∧ let loan := (get_val "building_cost" r + default NaN (c_lc !! j))
                      * loan_to_cost_ratio default_pf in
          get_val "financing_cost" r
          = loan * drawdown_factor default_pf
              * (interest_rate default_pf / #12 * get_val "construction_time" r)
            + loan * loan_fees default_pf) residential_lookup.
Proof.
  split; [apply get_ok_eq|]. split; [exact residential_lookup_length|].
  apply Forall_forall. intros r Hr.
  apply (lookup_financing_cost default_pf "residential" test_df residential_lookup r).
  - repeat constructor; vm_compute; apply not_elem_of_nil.
  - apply get_ok_eq.
  - exact Hr.
Defined.

(** X4.  Without hooks the [building_sqft] of every row of a lookup
    result is its [max_profit_far] times the parcel size of its site, and
    the [building_revenue] is that area times one less the [parking_ratio],
    times the building efficiency and the rent of the site weighted by the
    use mix of the form, over the cap rate. *)
Theorem lookup_building_revenue (self : SqFtProForma) form df out r :
  Forall (λ k, k ∉ pass_through self)
    ["max_profit"; "building_sqft"; "max_profit_far"; "parking_ratio";
     "building_revenue"] →
  (lookup self form df no_hooks).1 = Ok out → r ∈ out →
  ∃ j c_ps rents mix,
    let wt := working_table self form df in
    index df !! j = Some (label r)
    ∧ columns df !! "parcel_size" = Some c_ps
    ∧ map_result (col wt) (uses self) = Ok rents
    ∧ forms self !! form = Some mix
    ∧ get_val "building_sqft" r
      = get_val "max_profit_far" r * default NaN (c_ps !! j)
    ∧ get_val "building_revenue" r
      = get_val "building_sqft" r * (one - get_val "parking_ratio" r)
          * building_efficiency self * np_dot (row_of rents j) mix / cap_rate self.
Proof.
  intros Hpt H Hr. rewrite !Forall_cons in Hpt.
  destruct Hpt as (Hp1 & Hp2 & Hp3 & Hp4 & Hp5 & _).
  destruct (lookup_row_entry _ _ _ _ _ Hp1 H Hr)
    as (cfg & dev_info & e & rents & mix & c_mh & c_ps & c_lc & mmf0 & df3 & j & Hrow).
  cbv zeta in Hrow.
  destruct Hrow as (Hcfg & Hdev & He & Hmix & Hrents & Hmh & Hps & Hlc & _
                    & Hj & Hbuilt & Hfar & Hcap & Hheight & Hprofit & Hget).
  exists j, c_ps, rents, mix. cbv zeta. split; [done|]. split.
  { unfold working_table in Hps. destruct (simple_zoning self); [|done].
    by rewrite simple_zoning_keeps in Hps. }
  do 2 (split; [done|]). rewrite !Hget by done. split; reflexivity.
Qed.

Lemma lookup_building_revenue_witness :
  (lookup default_pf "residential" test_df no_hooks).1 = Ok residential_lookup
  ∧ length residential_lookup = 1%nat
  ∧ Forall (λ r, ∃ j c_ps,
        index test_df !! j = Some (label r)
        ∧ columns test_df !! "parcel_size" = Some c_ps
        ∧ get_val "building_sqft" r
          = get_val "max_profit_far" r * default NaN (c_ps !! j)) residential_lookup.
Proof.
  split; [apply get_ok_eq|]. split; [exact residential_lookup_length|].
  apply Forall_forall. intros r Hr.
  destruct (lookup_building_revenue default_pf "residential" test_df
              residential_lookup r)
    as (j & c_ps & rents & mix & Hj & Hps & _ & _ & Hsqft & _).
  - repeat constructor; vm_compute; apply not_elem_of_nil.
  - apply get_ok_eq.
  - exact Hr.
  - exists j, c_ps. split; [exact Hj|]. split; [exact Hps | exact Hsqft].
Defined.


(** X5.  With [only_built] set and without hooks, every row of a lookup
    result is for a site of positive parcel size, every far cap of the
    site that is set (its [max_far], the far its [max_height] leaves room
    for) is positive, and, when the table has no [max_dua] column, one of
    [max_far] and [max_height] is set: a site where both are NaN is not
    built. *)
Theorem lookup_only_built_sites (self : SqFtProForma) form df out r :
  only_built self = true →
  "max_profit" ∉ pass_through self →
  (lookup self form df no_hooks).1 = Ok out → r ∈ out →
  ∃ j ps,
    let wt := working_table self form df in
    index df !! j = Some (label r)
    ∧ value_at df "parcel_size" j = Some ps ∧ (ps >? #0) = true
    ∧ (∀ mf, value_at wt "max_far" j = Some mf → isnan mf = false →
         (mf >? #0) = true)
    ∧ (∀ mh, value_at wt "max_height" j = Some mh →
         let cap := mh / height_per_story self * parcel_coverage self in
         isnan cap = false → (cap >? #0) = true)
    ∧ (columns wt !! "max_dua" = None →
       (∃ mf, value_at wt "max_far" j = Some mf ∧ isnan mf = false)
       ∨ (∃ mh, value_at wt "max_height" j = Some mh ∧ isnan mh = false)).
Proof.
  intros Hob Hp1 H Hr.
  destruct (lookup_row_entry _ _ _ _ _ Hp1 H Hr)
    as (cfg & dev_info & e & rents & mix & c_mh & c_ps & c_lc & mmf0 & df3 & j & Hrow).
  cbv zeta in Hrow.
  destruct Hrow as (Hcfg & Hdev & He & Hmix & Hrents & Hmh & Hps & Hlc & (ρ & Hρ & Hmm)
                    & Hj & Hbuilt & Hfar & Hcap & Hheight & Hprofit & Hget).
  destruct (Hbuilt Hob) as [Hmpos Hpspos].
  destruct (c_ps !! j) as [ps|] eqn:Hpsj; [|done]. cbn [default] in Hpspos.
  destruct (mmf0 !! j) as [y|] eqn:Hy; [|done].
  change (default NaN (Some y)) with y in Hmpos.
  change (default NaN (Some ps)) with ps in Hpspos.
  exists j, ps. cbv zeta. split; [done|]. split.
  { apply value_at_Some. exists c_ps. split; [|done].
    unfold working_table in Hps. destruct (simple_zoning self); [|done].
    by rewrite simple_zoning_keeps in Hps. }
  split; [done|].
  destruct (min_max_fars_spec _ _ _ _ _ Hmm) as [Hlen Hmin].
  destruct (Hmin j y Hy) as [Hle Hex].
  assert (Hynan : isnan y = false) by (by destruct y).
  split; [|split].
  - intros mf (c & Hc & Hmf)%value_at_Some Hnan.
    unfold gtb in *. eapply ltb_leb_trans; [exact Hmpos|].
    apply (Hle "max_far" c mf); [repeat constructor | | done | done].
    cbn [columns set_col]. by rewrite !lookup_insert_ne.
  - intros mh (c & Hc & Hmhj)%value_at_Some Hnan.
    assert (c = c_mh) as -> by congruence.
    unfold gtb in *. eapply ltb_leb_trans; [exact Hmpos|].
    eapply (Hle "max_far_from_heights"); [repeat constructor | | | done].
    + cbn [columns set_col]. by rewrite lookup_insert_eq.
    + by rewrite list_lookup_fmap, Hmhj.
  - intros Hdua.
    destruct (Hex Hynan) as (name & c & x & Hc & Hx & Hnan & Hname).
    destruct Hname as [-> | [-> | (-> & Hsome & _)]].
    + right. rewrite (min_max_fars_columns _ _ _ _ _ _ Hmm) in Hc by done.
      cbn [columns set_col] in Hc. rewrite lookup_insert_eq in Hc.
      injection Hc as <-. rewrite list_lookup_fmap in Hx.
      destruct (c_mh !! j) as [mh|] eqn:Hmhj; [|done]. injection Hx as <-.
      exists mh. split; [apply value_at_Some; eauto|].
      apply isnan_mul in Hnan as [Hnan _]. by apply isnan_div in Hnan as [Hnan _].
    + left. rewrite (min_max_fars_columns _ _ _ _ _ _ Hmm) in Hc by done.
      cbn [columns set_col] in Hc. rewrite !lookup_insert_ne in Hc by done.
      exists x. split; [apply value_at_Some; eauto | done].
    + cbn [columns set_col] in Hsome. rewrite !lookup_insert_ne in Hsome by done.
      rewrite Hdua in Hsome. by destruct Hsome.
Qed.

Lemma lookup_only_built_sites_witness :
  (lookup default_pf "residential" test_df no_hooks).1 = Ok residential_lookup
  ∧ length residential_lookup = 1%nat
  ∧ Forall (λ r, ∃ j ps,
        index test_df !! j = Some (label r)
        ∧ value_at test_df "parcel_size" j = Some ps ∧ (ps >? #0) = true)
      residential_lookup.
Proof.
  split; [apply get_ok_eq|]. split; [exact residential_lookup_length|].
  apply Forall_forall. intros r Hr.
  destruct (lookup_only_built_sites default_pf "residential" test_df
              residential_lookup r) as (j & ps & Hj & Hps & Hpos & _).
  - vm_compute. reflexivity.
  - vm_compute. apply not_elem_of_nil.
  - apply get_ok_eq.
  - exact Hr.
  - exists j, ps. split; [exact Hj|]. split; [exact Hps | exact Hpos].
Defined.

(** ** The reference tables *)

(** ** The shape of a reference table *)

Lemma building_bulk_length (self : Attrs) mix cfg bulk :
  _building_bulk self mix cfg = Ok bulk → length bulk = length (fars self).
Proof.
  unfold _building_bulk. intros H. inv_bind H.
  destruct (bool_decide _); inv_bind H; subst bulk; by rewrite ?length_fmap.
Qed.

Lemma stories_length (self : Attrs) cfg bulk stalls stories :
  _stories self cfg bulk stalls = Ok stories → length stalls = length bulk →
  length stories = length bulk.
Proof.
  unfold _stories. intros H Hlen. inv_bind H. subst stories.
  rewrite length_fmap.
  repeat (destruct (bool_decide _) in Hx0); inv_bind Hx0; try done; subst x0;
    rewrite ?length_fmap, ?length_zip_with; lia.
Qed.

Lemma park_sqft_length (self : Attrs) cfg stalls psq :
  _park_sqft self cfg stalls = Ok psq → length psq = length stalls.
Proof.
  unfold _park_sqft. intros H.
  destruct (_ || _); [inv_bind H; subst psq; by rewrite length_fmap|].
  destruct (bool_decide _); [|done]. inv_bind H. subst psq. by rewrite length_fmap.
Qed.

Lemma building_cost_length (self : Attrs) mix stories bcost :
  _building_cost self mix stories = Ok bcost → length bcost = length stories.
Proof.
  unfold _building_cost. intros H. inv_bind H. subst bcost.
  apply map_result_length in Hx. rewrite !length_fmap in Hx.
  rewrite length_zip_with, length_fmap. lia.
Qed.

Lemma construction_time_length (self : Attrs) mix bulks months :
  _construction_time self mix bulks = Ok months → length months = length bulks.
Proof.
  unfold _construction_time. intros H. inv_bind H. subst months.
  apply map_result_length in Hx. rewrite length_fmap in Hx.
  by rewrite length_fmap.
Qed.

Lemma reference_rows_length (self : Attrs) name p fs bulk stalls psq pcost
    stories bcost months :
  length bulk = length fs → length stalls = length fs → length psq = length fs →
  length pcost = length fs → length stories = length fs →
  length bcost = length fs → length months = length fs →
  length (reference_rows self name p fs bulk stalls psq pcost stories bcost months)
  = length fs.
Proof.
  revert bulk stalls psq pcost stories bcost months.
  induction fs as [|f fs IH];
    intros [|b bulk] [|s stalls] [|q psq] [|c pcost] [|st stories]
           [|bc bcost] [|m months]; simpl; try done.
  intros. f_equal. apply IH; lia.
Qed.

(** The columns of a reference table, as [_reference_dataframe] computes
    them, and the entry at each far of the grid. *)
Lemma reference_dataframe_rows (self : Attrs) name mix cfg t :
  _reference_dataframe self name mix cfg = Ok t →
  ∃ p bulk stories psq pc sq bcost months,
    let stalls := (λ b, b * weighted_parking_rate self mix / sqft_per_rate self)
                    <$> bulk in
    tiled_parcel_size self = Ok p
    ∧ _building_bulk self mix cfg = Ok bulk
    ∧ _stories self cfg bulk stalls = Ok stories
    ∧ _park_sqft self cfg stalls = Ok psq
    ∧ cost_of self cfg = Ok pc
    ∧ sqft_of self cfg = Ok sq
    ∧ _building_cost self mix stories = Ok bcost
    ∧ _construction_time self mix (zip_with add bulk psq) = Ok months
    ∧ length t = length (fars self)
    ∧ ∀ i f, fars self !! i = Some f →
        ∃ b st q bc m,
          bulk !! i = Some b ∧ stories !! i = Some st ∧ psq !! i = Some q
          ∧ bcost !! i = Some bc ∧ months !! i = Some m
          ∧ t !! i
            = Some (reference_row self name p f b
                      (b * weighted_parking_rate self mix / sqft_per_rate self)
                      q (pc * (b * weighted_parking_rate self mix / sqft_per_rate self)
                           * sq)
                      st bc m).
Proof.
  unfold _reference_dataframe. intros H. inv_bind H. subst t.
  rename x6 into p, x5 into months, x4 into bcost, x3 into sq, x2 into pc,
         x1 into psq, x0 into stories, x into bulk.
  exists p, bulk, stories, psq, pc, sq, bcost, months. cbv zeta.
  do 8 (split; [done|]).
  pose proof (building_bulk_length _ _ _ _ Hx) as L1.
  pose proof (stories_length _ _ _ _ _ Hx0) as L2. rewrite length_fmap in L2.
  specialize (L2 eq_refl).
  pose proof (park_sqft_length _ _ _ _ Hx1) as L3. rewrite length_fmap in L3.
  pose proof (building_cost_length _ _ _ _ Hx4) as L4.
  pose proof (construction_time_length _ _ _ _ Hx5) as L5.
  rewrite length_zip_with in L5.
  match goal with |- length ?rows = _ ∧ _ =>
    assert (Hlen : length rows = length (fars self))
  end.
  { apply reference_rows_length; rewrite ?length_fmap; lia. }
  split; [done|].
  intros i f Hf.
  match type of Hlen with length ?rows = _ =>
    destruct (lookup_lt_is_Some_2 rows i) as [r Hr]
  end.
  { rewrite Hlen. by eapply lookup_lt_Some. }
  destruct (reference_rows_lookup _ _ _ _ _ _ _ _ _ _ _ _ _ Hr)
    as (f' & b & s & q & c & st & bc & m & Hf' & Hb & Hs & Hq & Hc & Hst & Hbc & Hm & ->).
  assert (f' = f) as -> by congruence.
  rewrite list_lookup_fmap, Hb in Hs. injection Hs as <-.
  rewrite !list_lookup_fmap, Hb in Hc. injection Hc as <-.
  exists b, st, q, bc, m. by do 5 (split; [done|]).
Qed.

(** ** The keys of the reference dictionary *)

Lemma generate_reference_fold (self : Attrs) (keys : list (string * string))
    (m0 ref : gmap (string * string) (list RefRow)) :
  foldl (λ acc (key : string * string),
           df_d ← acc;
           uses_distrib ← or_raise (KeyError key.1) (forms self !! key.1);
           df ← _reference_dataframe self key.1 uses_distrib key.2;
           Ok (<[key := df]> df_d))
        (Ok m0) keys = Ok ref →
  (∀ key t, ref !! key = Some t →
     m0 !! key = Some t
     ∨ (key ∈ keys ∧ ∃ mix, forms self !! key.1 = Some mix
                      ∧ _reference_dataframe self key.1 mix key.2 = Ok t))
  ∧ (∀ key, key ∈ keys ∨ is_Some (m0 !! key) → is_Some (ref !! key)).
Proof.
  revert m0. induction keys as [|k keys IH]; intros m0 H; simpl in H.
  { injection H as <-. split; [by left|]. intros key [?%elem_of_nil | ?]; done. }
  destruct (or_raise (KeyError k.1) (forms self !! k.1)) as [mix|err] eqn:Hmix;
    cbn [mbind result_bind] in H.
  2:{ exfalso. clear -H. induction keys as [|k' keys IH]; [done|]. by simpl in H. }
  destruct (_reference_dataframe self k.1 mix k.2) as [t0|err] eqn:Ht0;
    cbn [mbind result_bind] in H.
  2:{ exfalso. clear -H. induction keys as [|k' keys IH]; [done|]. by simpl in H. }
  apply or_raise_Ok in Hmix.
  destruct (IH _ H) as [IH1 IH2]. split.
  - intros key t Ht. destruct (IH1 key t Ht) as [Hm | (Hin & Hex)].
    + destruct (decide (k = key)) as [<- | Hne].
      * rewrite lookup_insert_eq in Hm. injection Hm as <-.
        right. split; [by left | eauto].
      * rewrite lookup_insert_ne in Hm by done. by left.
    + right. split; [by right | done].
  - intros key Hkey. apply IH2.
    destruct (decide (k = key)) as [<- | Hne].
    + right. rewrite lookup_insert_eq. eauto.
    + destruct Hkey as [[-> | Hin]%elem_of_cons | Hsome]; [done | by left |].
      right. by rewrite lookup_insert_ne.
Qed.

Lemma generate_reference_spec (self : Attrs) ref :
  _generate_reference self = Ok ref →
  ∀ name cfg,
    (is_Some (ref !! (name, cfg))
     ↔ is_Some (forms self !! name) ∧ cfg ∈ parking_configs self)
    ∧ ∀ t, ref !! (name, cfg) = Some t →
        ∃ mix, forms self !! name = Some mix
          ∧ _reference_dataframe self name mix cfg = Ok t.
Proof.
  unfold _generate_reference. intros H name cfg.
  destruct (generate_reference_fold _ _ _ _ H) as [H1 H2].
  assert (Hkeys : ∀ key : string * string,
            key ∈ (name ← sorted (map_to_list (forms self)).*1;
                   parking_config ← parking_configs self; [(name, parking_config)])
            ↔ is_Some (forms self !! key.1) ∧ key.2 ∈ parking_configs self).
  { intros [n c]. rewrite list_elem_of_bind. simpl. split.
    - intros (n' & Hin & Hn'). apply list_elem_of_bind in Hin as (c' & Hin & Hc').
      apply list_elem_of_singleton in Hin as [= -> ->]. split; [|done].
      unfold sorted in Hn'. rewrite merge_sort_Permutation in Hn'.
      apply list_elem_of_fmap in Hn' as ([n'' v] & -> & Hv).
      apply elem_of_map_to_list in Hv. simpl. eauto.
    - intros [[v Hv] Hc]. exists n. split.
      + apply list_elem_of_bind. exists c. split; [by apply list_elem_of_singleton | done].
      + unfold sorted. rewrite merge_sort_Permutation.
        apply list_elem_of_fmap. exists (n, v). split; [done|].
        by apply elem_of_map_to_list. }
  split; [split|].
  - intros [t Ht]. destruct (H1 _ _ Ht) as [Hm | [Hin _]]; [done|].
    by apply Hkeys in Hin.
  - intros Hk. apply H2. left. by apply Hkeys.
  - intros t Ht. destruct (H1 _ _ Ht) as [Hm | [_ Hex]]; done.
Qed.

(** X6.  The reference dictionary of a constructed object has a table
    for exactly the pairs of a form and a configured parking
    configuration.  The table of a pair is the one [_reference_dataframe]
    computes from the normalized use mix of the form, and it has one entry
    for every far of the grid, in the order of the grid. *)
Theorem reference_dict_tables (c : Config.t) (pf : SqFtProForma) :
  __init__ c = Ok pf →
  ∀ name cfg,
    (is_Some (reference_dict pf !! (name, cfg))
     ↔ is_Some (forms pf !! name) ∧ cfg ∈ parking_configs pf)
    ∧ ∀ t, reference_dict pf !! (name, cfg) = Some t →
        far <$> t = fars pf
        ∧ ∃ mix, forms pf !! name = Some mix
            ∧ _reference_dataframe pf name mix cfg = Ok t.
Proof.
  unfold __init__. intros H name cfg. inv_bind H. subst pf. cbn [attrs reference_dict].
  destruct (generate_reference_spec _ _ Hx1 name cfg) as [Hkeys Htab].
  split; [done|]. intros t Ht. destruct (Htab t Ht) as (mix & Hmix & Hdf).
  split; [|eauto].
  destruct (reference_dataframe_rows _ _ _ _ _ Hdf)
    as (p & bulk & stories & psq & pc & sq & bcost & months & _ & _ & _ & _ & _ & _ & _
        & _ & Hlen & Hrows).
  apply list_eq. intros i. rewrite list_lookup_fmap.
  destruct (fars x0 !! i) as [f|] eqn:Hf.
  - destruct (Hrows i f Hf) as (b & st & q & bc & m & _ & _ & _ & _ & _ & ->). done.
  - apply lookup_ge_None in Hf. rewrite <-Hlen in Hf.
    apply lookup_ge_None in Hf. by rewrite Hf.
Qed.

Lemma reference_dict_tables_witness :
  is_Some (reference_dict default_pf !! ("residential", "deck"))
  ∧ ∀ t, reference_dict default_pf !! ("residential", "deck") = Some t →
      far <$> t = fars default_pf.
Proof.
  destruct (reference_dict_tables get_defaults default_pf from_defaults_eq
              "residential" "deck") as [Hkeys Htab].
  split.
  - apply Hkeys. split; [apply (bool_decide_unpack _); vm_compute; exact I|].
    apply (bool_decide_unpack _). vm_compute. exact I.
  - intros t Ht. by destruct (Htab t Ht).
Defined.

(** X7.  [_reference_dataframe] returns no table for a parking
    configuration other than surface, deck and underground: it raises,
    whatever the form and the other parameters. *)
Theorem reference_dataframe_unknown_parking (self : Attrs) name mix cfg :
  cfg ∉ ["surface"; "deck"; "underground"] →
  is_ok (_reference_dataframe self name mix cfg) = false.
Proof.
  intros Hcfg. rewrite !not_elem_of_cons in Hcfg. destruct Hcfg as (H1 & H2 & H3 & _).
  destruct (_reference_dataframe self name mix cfg) as [t|] eqn:H; [|done].
  exfalso.
  destruct (reference_dataframe_rows _ _ _ _ _ H)
    as (p & bulk & stories & psq & pc & sq & bcost & months & Hp & _ & Hst & _).
  cbv zeta in Hst. unfold _stories in Hst. rewrite Hp in Hst.
  cbn [mbind result_bind] in Hst.
  rewrite !bool_decide_false in Hst by done. done.
Qed.

Lemma reference_dataframe_unknown_parking_witness :
  is_ok (_reference_dataframe default_pf "residential" (default_mix "residential")
           "garage") = false.
Proof.
  apply reference_dataframe_unknown_parking.
  apply (bool_decide_unpack _). vm_compute. exact I.
Defined.

Lemma add_zero_r (x : num) : x + zero = x.
Proof. destruct x as [| | |a]; try done. unfold zero. simpl. f_equal. ring. Qed.

(** X8.  In a reference table of the surface configuration parking takes
    no built area: the parking area of every entry is zero, the total built
    area is the building area, and the building area is the parcel size
    times the far. *)
Theorem surface_no_parking_area (self : Attrs) name mix t i r :
  _reference_dataframe self name mix "surface" = Ok t → t !! i = Some r →
  park_sqft r = zero
  ∧ total_built_sqft r = ref_building_sqft r
  ∧ ref_building_sqft r = pclsz r * far r.
Proof.
  intros H Hr.
  destruct (reference_dataframe_rows _ _ _ _ _ H)
    as (p & bulk & stories & psq & pc & sq & bcost & months & Hp & Hbulk & _ & Hpsq & _
        & _ & _ & _ & Hlen & Hrows).
  destruct (lookup_lt_is_Some_2 (fars self) i) as [f Hf].
  { rewrite <-Hlen. by eapply lookup_lt_Some. }
  destruct (Hrows i f Hf) as (b & st & q & bc & m & Hb & _ & Hq & _ & _ & Ht).
  rewrite Hr in Ht. apply (inj Some) in Ht. subst r.
  cbn [park_sqft total_built_sqft ref_building_sqft pclsz far reference_row].
  unfold _building_bulk in Hbulk. rewrite Hp in Hbulk. cbn [mbind result_bind] in Hbulk.
  rewrite bool_decide_false in Hbulk by done.
  assert (bulk = (λ f, p * f) <$> fars self) as -> by congruence.
  rewrite list_lookup_fmap, Hf in Hb. apply (inj Some) in Hb. subst b.
  unfold _park_sqft in Hpsq. rewrite !bool_decide_false in Hpsq by done.
  rewrite bool_decide_true in Hpsq by done. cbn [orb] in Hpsq.
  assert (psq = (λ _, zero)
                  <$> ((λ b, b * weighted_parking_rate self mix / sqft_per_rate self)
                         <$> ((λ f, p * f) <$> fars self))) as -> by congruence.
  rewrite !list_lookup_fmap, Hf in Hq. apply (inj Some) in Hq. subst q.
  split; [done|]. split; [apply add_zero_r | done].
Qed.

Lemma surface_no_parking_area_witness :
  ∃ r : RefRow,
    default_table "residential" "surface" !! 3%nat = Some r
    ∧ park_sqft r = zero
    ∧ total_built_sqft r = ref_building_sqft r.
Proof.
  eexists. split; [vm_compute; reflexivity|].
  edestruct (surface_no_parking_area default_pf "residential"
               (default_mix "residential") (default_table "residential" "surface") 3)
    as (Hp & Ht & _).
  - vm_compute. reflexivity.
  - vm_compute. reflexivity.
  - split; [exact Hp | exact Ht].
Defined.

(** X9.  In a reference table the construction time of an entry is the
    use-mix-weighted dot product of the months of one bracket.  When the
    total built area of the entry is not NaN the bracket is the first whose
    breakpoint in [construction_sqft_for_months] is not below that area. *)
Theorem construction_months_bracket (self : Attrs) name mix cfg t i r :
  _reference_dataframe self name mix cfg = Ok t → t !! i = Some r →
  ∃ k row,
    construction_months self !! k = Some row
    ∧ ref_construction_months r = np_dot row mix
    ∧ (isnan (total_built_sqft r) = false →
       (∀ j b, (j < k)%nat → construction_sqft_for_months self !! j = Some b →
               (b <? total_built_sqft r) = true)
       ∧ (∀ b, construction_sqft_for_months self !! k = Some b →
               (b <? total_built_sqft r) = false)).
Proof.
  intros H Hr.
  destruct (reference_dataframe_rows _ _ _ _ _ H)
    as (p & bulk & stories & psq & pc & sq & bcost & months & _ & _ & _ & _ & _
        & _ & _ & Hmonths & Hlen & Hrows).
  destruct (lookup_lt_is_Some_2 (fars self) i) as [f Hf].
  { rewrite <-Hlen. by eapply lookup_lt_Some. }
  destruct (Hrows i f Hf) as (b & st & q & bc & m & Hb & _ & Hq & _ & Hm & Ht).
  rewrite Hr in Ht. apply (inj Some) in Ht. subst r.
  cbn [ref_construction_months total_built_sqft reference_row].
  unfold _construction_time in Hmonths. inv_bind Hmonths. subst months.
  rewrite list_lookup_fmap in Hm.
  destruct (x !! i) as [row|] eqn:Hrow; [|done]. apply (inj Some) in Hm. subst m.
  destruct (map_result_lookup _ _ _ _ _ Hx Hrow) as (k & Hk & Hrowk).
  apply or_raise_Ok in Hrowk.
  rewrite list_lookup_fmap in Hk.
  assert (Hz : zip_with add bulk psq !! i = Some (b + q)).
  { apply lookup_zip_with_Some. eauto. }
  rewrite Hz in Hk. apply (inj Some) in Hk. subst k.
  eexists _, row. split; [exact Hrowk|]. split; [done|].
  intros Hnan. by apply searchsorted_spec.
Qed.

Lemma construction_months_bracket_witness :
  ∃ (r : RefRow) k row,
    default_table "residential" "surface" !! 3%nat = Some r
    ∧ construction_months default_pf !! k = Some row
    ∧ ref_construction_months r = np_dot row (default_mix "residential").
Proof.
  eexists.
  edestruct (construction_months_bracket default_pf "residential"
               (default_mix "residential") "surface"
               (default_table "residential" "surface") 3)
    as (k & row & Hk & Hm & _).
  - vm_compute. reflexivity.
  - vm_compute. reflexivity.
  - exists k, row. split; [vm_compute; reflexivity|]. split; [exact Hk | exact Hm].
Defined.

(** ** Validation *)

Lemma seq_Ok (m k : result unit) :
  m ≫= (λ _, k) = Ok tt ↔ m = Ok tt ∧ k = Ok tt.
Proof.
  rewrite bind_Ok. split.
  - by intros ([] & ? & ?).
  - intros [? ?]. by exists tt.
Qed.

Lemma assert_Ok_tt (c : bool) : assert c = Ok tt ↔ c = true.
Proof. apply assert_Ok. Qed.

Lemma filter_length_zero {A} (P : A → Prop) `{∀ x, Decision (P x)} (l : list A) :
  length (filter P l) = 0%nat ↔ Forall (λ x, ¬ P x) l.
Proof.
  induction l as [|x l IH]; [by split; [constructor|]|].
  destruct (decide (P x)) as [Hx|Hx].
  - rewrite filter_cons_True by done. simpl. split; [done|].
    intros [Hnx _]%Forall_cons. done.
  - rewrite filter_cons_False by done. rewrite IH, Forall_cons. tauto.
Qed.

Lemma for_each_map_Forall {A} (body : string * A → result unit) (m : gmap string A) :
  for_each body (map_to_list m) = Ok tt ↔ map_Forall (λ k v, body (k, v) = Ok tt) m.
Proof.
  rewrite for_each_Ok, map_Forall_to_list. apply Forall_iff. by intros [k v].
Qed.

(** The exceptions of a loop of assertions. *)
Lemma for_each_only_assert {A} (body : A → result unit) (l : list A) :
  (∀ x, body x = Ok tt ∨ body x = Raise AssertionError) →
  for_each body l = Ok tt ∨ for_each body l = Raise AssertionError.
Proof.
  intros Hb. induction l as [|x l IH]; [by left|]. simpl.
  destruct (Hb x) as [-> | ->]; [exact IH | by right].
Qed.

Lemma assert_only_assert (c : bool) :
  assert c = Ok tt ∨ assert c = Raise AssertionError.
Proof. destruct c; [by left | by right]. Qed.

Lemma seq_only_assert (m k : result unit) :
  m = Ok tt ∨ m = Raise AssertionError →
  k = Ok tt ∨ k = Raise AssertionError →
  m ≫= (λ _, k) = Ok tt ∨ m ≫= (λ _, k) = Raise AssertionError.
Proof. intros [-> | ->] Hk; [exact Hk | by right]. Qed.

Lemma assert_and_Ok (a b : bool) :
  assert a ≫= (λ _, assert b) = Ok tt ↔ a = true ∧ b = true.
Proof. by rewrite seq_Ok, !assert_Ok_tt. Qed.

Lemma leb_10_50 (v : num) : (#50 <=? v) = true → (#10 <=? v) = true.
Proof. apply leb_trans. by vm_compute. Qed.

Lemma leb_300_1000 (v : num) : (v <=? #300) = true → (v <=? #1000) = true.
Proof. intros H. eapply leb_trans; [exact H|]. by vm_compute. Qed.

(** X10.  [check_is_reasonable] passes exactly when no far is above 20
    or at most 0 (a NaN far passes), every fraction of every form is a
    float, every parking rate is for a listed use and in [0, 5), every
    stall area is for a listed parking configuration that has a cost and is
    in [50, 300] (the bounds of the two loops over the stall areas
    together), every height breakpoint is infinite or in [0, 1000], and
    every cost is for a listed use and strictly between 10 and 1000.  When
    it does not pass it raises AssertionError and nothing else. *)
Theorem check_is_reasonable_spec (c : Config.t) :
  (check_is_reasonable c = Ok tt
   ↔ Forall (λ f, (f >? #20) = false ∧ (f <=? #0) = false) (Config.fars c)
     ∧ map_Forall (λ _ form, map_Forall (λ _ v, is_float v = true) form)
         (Config.forms c)
     ∧ map_Forall (λ k v, k ∈ Config.uses c ∧ (#0 <=? v) = true ∧ (v <? #5) = true)
         (Config.parking_rates c)
     ∧ map_Forall (λ k v, k ∈ Config.parking_configs c
                          ∧ is_Some (Config.parking_cost_d c !! k)
                          ∧ (#50 <=? v) = true ∧ (v <=? #300) = true)
         (Config.parking_sqft_d c)
     ∧ Forall (λ v, isinf v = true ∨ ((#0 <=? v) = true ∧ (v <=? #1000) = true))
         (Config.heights_for_costs c)
     ∧ map_Forall (λ k l, k ∈ Config.uses c
                          ∧ Forall (λ i, (#10 <? i) = true ∧ (i <? #1000) = true) l)
         (Config.costs c))
  ∧ (check_is_reasonable c = Ok tt ∨ check_is_reasonable c = Raise AssertionError).
Proof.
  unfold check_is_reasonable. split.
  - rewrite !seq_Ok, !assert_Ok_tt, !bool_decide_eq_true, !filter_length_zero.
    rewrite !for_each_map_Forall, for_each_Ok.
    split.
    + intros (Hf1 & Hf2 & Hforms & Hrates & Hsq1 & Hsq2 & Hh & Hcosts).
      split; [|split; [|split; [|split; [|split]]]].
      * rewrite Forall_forall in Hf1, Hf2. apply Forall_forall. intros f Hf.
        specialize (Hf1 f Hf). specialize (Hf2 f Hf).
        by rewrite !not_true_iff_false in Hf1, Hf2.
      * intros k form Hk. specialize (Hforms k form Hk). cbn [snd] in Hforms.
        apply seq_Ok in Hforms as [Hforms _].
        apply for_each_map_Forall in Hforms.
        intros k2 v2 Hk2. specialize (Hforms k2 v2 Hk2). by apply assert_Ok_tt in Hforms.
      * intros k v Hk. specialize (Hrates k v Hk). cbn [fst snd] in Hrates.
        apply assert_and_Ok in Hrates as [Hin%bool_decide_eq_true Hr].
        by apply andb_true_iff in Hr.
      * intros k v Hk. specialize (Hsq1 k v Hk). specialize (Hsq2 k v Hk).
        cbn [fst snd] in Hsq1, Hsq2.
        apply assert_and_Ok in Hsq1 as [Hin%bool_decide_eq_true Hr1].
        apply assert_and_Ok in Hsq2 as [Hsome%bool_decide_eq_true Hr2].
        apply andb_true_iff in Hr1 as [? ?]. apply andb_true_iff in Hr2 as [? ?].
        done.
      * eapply Forall_impl; [exact Hh|]. intros v Hv. cbv beta in Hv.
        destruct (isinf v); [by left|]. right.
        apply assert_Ok_tt in Hv. by apply andb_true_iff in Hv.
      * intros k l Hk. specialize (Hcosts k l Hk). cbn [fst snd] in Hcosts.
        apply seq_Ok in Hcosts as [Hin Hl]. apply assert_Ok_tt in Hin.
        apply bool_decide_eq_true in Hin. split; [done|].
        apply for_each_Ok in Hl. eapply Forall_impl; [exact Hl|].
        intros i Hi. cbv beta in Hi. apply assert_Ok_tt in Hi.
        by apply andb_true_iff in Hi.
    + intros (Hf & Hforms & Hrates & Hsq & Hh & Hcosts).
      split; [|split; [|split; [|split; [|split; [|split; [|split]]]]]].
      * eapply Forall_impl; [exact Hf|]. intros f [H1 _]. by rewrite H1.
      * eapply Forall_impl; [exact Hf|]. intros f [_ H2]. by rewrite H2.
      * intros k form Hk. specialize (Hforms k form Hk). cbn [snd].
        assert (for_each (λ k2v2 : string * pynum, assert (is_float k2v2.2))
                  (map_to_list form) = Ok tt) as ->; [|done].
        apply for_each_map_Forall. intros k2 v2 Hk2. apply assert_Ok_tt.
        cbn [snd]. cbv beta in Hforms. by apply (Hforms k2 v2).
      * intros k v Hk. destruct (Hrates k v Hk) as (Hin & H1 & H2). cbn [fst snd].
        apply assert_and_Ok. rewrite bool_decide_eq_true, H1, H2. done.
      * intros k v Hk. destruct (Hsq k v Hk) as (Hin & Hsome & H1 & H2). cbn [fst snd].
        apply assert_and_Ok. rewrite bool_decide_eq_true, H1, (leb_300_1000 _ H2). done.
      * intros k v Hk. destruct (Hsq k v Hk) as (Hin & Hsome & H1 & H2). cbn [fst snd].
        apply assert_and_Ok. rewrite bool_decide_eq_true, H2, (leb_10_50 _ H1). done.
      * eapply Forall_impl; [exact Hh|]. intros v [-> | [H1 H2]]; [done|].
        destruct (isinf v); [done|]. apply assert_Ok_tt. by rewrite H1, H2.
      * intros k l Hk. destruct (Hcosts k l Hk) as [Hin Hl]. cbn [fst snd].
        apply seq_Ok. split; [by apply assert_Ok_tt, bool_decide_eq_true|].
        apply for_each_Ok. eapply Forall_impl; [exact Hl|].
        intros i [H1 H2]. apply assert_Ok_tt. by rewrite H1, H2.
  - repeat first
      [ apply seq_only_assert
      | apply assert_only_assert
      | apply for_each_only_assert; intros ?
      | match goal with |- context [if ?b then _ else _] => destruct b; [by left|] end ].
Qed.

(** ** Retail and industrial forms, missing columns *)


Lemma reference_dataframe_entry (self : Attrs) name mix cfg t (e : RefRow) :
  _reference_dataframe self name mix cfg = Ok t → e ∈ t →
  ∃ p b s q c st bc m, e = reference_row self name p (far e) b s q c st bc m.
Proof.
  unfold _reference_dataframe. intros H [i Hi]%list_elem_of_lookup. inv_bind H. subst t.
  apply reference_rows_lookup in Hi
    as (f & b & s & q & c & st & bc & m & _ & _ & _ & _ & _ & _ & _ & _ & ->).
  by exists x6, b, s, q, c, st, bc, m.
Qed.

Lemma out_row_max_profit_far (self : SqFtProForma) cfg lbl a b c d e f g h i j :
  get_val "max_profit_far" (out_row self cfg lbl a b c d e f g h i j) = g.
Proof. reflexivity. Qed.

(** X11.  Without hooks a lookup of the retail form on a constructed
    object returns no row whose [max_profit_far] is above
    [max_retail_height], and a lookup of the industrial form no row whose
    [max_profit_far] is above [max_industrial_height]: the reference table
    has no cost for such an entry, so it has no profit. *)
Theorem lookup_retail_far_cap (c : Config.t) (pf : SqFtProForma) form df out r :
  __init__ c = Ok pf →
  Forall (λ k, k ∉ pass_through pf) ["max_profit"; "max_profit_far"] →
  (lookup pf form df no_hooks).1 = Ok out → r ∈ out →
  (form = "retail" → (get_val "max_profit_far" r >? max_retail_height pf) = false)
  ∧ (form = "industrial" →
     (get_val "max_profit_far" r >? max_industrial_height pf) = false).
Proof.
  intros Hinit Hpt H Hr. rewrite !Forall_cons in Hpt. destruct Hpt as (Hp1 & Hp2 & _).
  destruct (lookup_row_entry _ _ _ _ _ Hp1 H Hr)
    as (cfg & dev_info & e & rents & mix & c_mh & c_ps & c_lc & mmf0 & df3 & j & Hrow).
  cbv zeta in Hrow.
  destruct Hrow as (Hcfg & Hdev & He & Hmix & _ & _ & _ & _ & _
                    & _ & _ & Hfar & _ & _ & Hprofit & Hget).
  rewrite Hget by done. rewrite out_row_max_profit_far.
  apply isnan_sub in Hprofit as [_ Htc].
  apply isnan_add in Htc as [Htc _]. apply isnan_add in Htc as [Hbc _].
  apply isnan_mul in Hbc as [_ Hcost].
  unfold __init__ in Hinit. inv_bind Hinit. subst pf. cbn [attrs reference_dict] in *.
  destruct (generate_reference_spec _ _ Hx1 form cfg) as [_ Htab].
  destruct (Htab _ Hdev) as (mix' & _ & Hdf).
  destruct (reference_dataframe_entry _ _ _ _ _ _ Hdf He)
    as (p & b & s & q & c0 & st & bc & m & Heq).
  rewrite Heq in Hcost. cbn [ave_cost_sqft reference_row] in Hcost.
  split; intros ->.
  - rewrite (bool_decide_true ("retail" = "retail")) in Hcost by done.
    rewrite (bool_decide_false ("retail" = "industrial")) in Hcost by done.
    cbn [andb] in Hcost. by destruct (far e >? max_retail_height x0).
  - rewrite (bool_decide_true ("industrial" = "industrial")) in Hcost by done.
    cbn [andb] in Hcost. by destruct (far e >? max_industrial_height x0).
Qed.

Lemma lookup_retail_far_cap_witness :
  (lookup default_pf "retail" retail_df no_hooks).1 = Ok retail_lookup
  ∧ length retail_lookup = 1%nat
  ∧ Forall (λ r, (get_val "max_profit_far" r >? max_retail_height default_pf) = false)
      retail_lookup.
Proof.
  split; [apply get_ok_eq|]. split; [vm_compute; reflexivity|].
  apply Forall_forall. intros r Hr.
  destruct (lookup_retail_far_cap get_defaults default_pf "retail" retail_df
              retail_lookup r) as [Hcap _].
  - exact from_defaults_eq.
  - repeat constructor; vm_compute; apply not_elem_of_nil.
  - apply get_ok_eq.
  - exact Hr.
  - by apply Hcap.
Defined.



